(** * Cooncierge field survey: the wizard and its submission sequence

    A shallow embedding of [src/src/App.jsx]: the form state, the
    per-step validation, the payload builder, the wizard navigation and
    [handleSubmit], the three-call submission sequence (insert the row,
    upload the photo, patch the row with the photo's location).

    JavaScript values are modelled as follows.
    - numbers that the code only uses as integers ([stepIndex],
      [teamSize], [Date.now()]) are [Z];
    - strings are [string]; a character is one code unit below 256;
    - [null] / [undefined] are [None];
    - an expression whose truthiness is tested keeps its JavaScript
      value ([JsVal]) and is tested with [truthy];
    - a [throw] inside [try] is the [Thrown] outcome of the monad [M]. *)

From Stdlib Require Import ZArith List Bool Ascii String DecimalString Lia.
From Stdlib Require DecimalPos DecimalZ.
Import ListNotations.
Local Open Scope string_scope.
Local Open Scope Z_scope.

Set Implicit Arguments.

(* ------------------------------------------------------------------ *)
(** * JavaScript helpers used by the component *)

Module Js.

(** The value of an expression built with [&&] and [||] in
    [validateStep]: a boolean or a string. *)
Inductive JsVal : Type :=
| VBool (b : bool)
| VStr (s : string).

Definition truthy (v : JsVal) : bool :=
  match v with
  | VBool b => b
  | VStr EmptyString => false
  | VStr (String _ _) => true
  end.

(** [a && b] and [a || b] return one of their operands. *)
Definition and_ (a b : JsVal) : JsVal := if truthy a then b else a.
Definition or_ (a b : JsVal) : JsVal := if truthy a then a else b.
Definition not_ (a : JsVal) : JsVal := VBool (negb (truthy a)).

(** WhiteSpace and LineTerminator code units below 256:
    TAB, LF, VT, FF, CR, SP and NBSP. *)
Definition isWhiteSpace (c : ascii) : bool :=
  let n := nat_of_ascii c in
  (Nat.eqb n 9 || Nat.eqb n 10 || Nat.eqb n 11 || Nat.eqb n 12
   || Nat.eqb n 13 || Nat.eqb n 32 || Nat.eqb n 160)%bool.

Fixpoint trimStart (s : string) : string :=
  match s with
  | EmptyString => EmptyString
  | String c r => if isWhiteSpace c then trimStart r else s
  end.

Fixpoint trimEnd (s : string) : string :=
  match s with
  | EmptyString => EmptyString
  | String c r =>
      match trimEnd r with
      | EmptyString => if isWhiteSpace c then EmptyString else String c EmptyString
      | r' => String c r'
      end
  end.

(** [String.prototype.trim] *)
Definition trim (s : string) : string := trimEnd (trimStart s).

(** [Array.prototype.includes] on an array of strings. *)
Definition includes (l : list string) (x : string) : bool :=
  existsb (String.eqb x) l.

(** [s.split(sep)] for a one-character separator: never empty. *)
Fixpoint split (sep : ascii) (s : string) : list string :=
  match s with
  | EmptyString => [EmptyString]
  | String c r =>
      if Ascii.eqb c sep then EmptyString :: split sep r
      else match split sep r with
           | h :: t => String c h :: t
           | [] => [String c EmptyString]
           end
  end.

(** [Array.prototype.pop]'s result: the last element, [undefined]
    on an empty array. *)
Fixpoint pop (l : list string) : option string :=
  match l with
  | [] => None
  | [x] => Some x
  | _ :: t => pop t
  end.

(** [String(n)] / [`${n}`] for an integer [n] (plain decimal digits,
    as JavaScript prints integers below 10^21 in magnitude). *)
Definition ofNumber (n : Z) : string := NilZero.string_of_int (Z.to_int n).

(** [`${v}`] for a value that may be [undefined]. *)
Definition ofMaybe (v : option string) : string :=
  match v with
  | Some s => s
  | None => "undefined"
  end.

(** [s.startsWith(p)] *)
Definition startsWith (s p : string) : bool := String.prefix p s.

End Js.
Import Js.

(* ------------------------------------------------------------------ *)
(** * Data model *)

(** A browser [File]: the component reads its [name] and [type]; the
    bytes travel to the blob store untouched. *)
Module File.
Record t : Type := mk { name : string; type : string; bytes : list Byte.byte }.
End File.

Record Profiling : Type := mkProfiling {
  products : list string;
  productsOther : string;
  audience : list string;
  audienceOther : string;
  teamSize : Z
}.

Module CustomerEnd.
Record t : Type := mk {
  lms : bool;
  conversionTimeQuote : bool;
  rightCustomers : bool;
  other : string
}.
End CustomerEnd.

Module InternalOps.
Record t : Type := mk {
  finance : bool;
  reports : bool;
  dk : bool;
  dayToDayBookings : bool;
  onTripOps : bool;
  trainingNewJoinee : bool;
  other : string
}.
End InternalOps.

Module SupplierEnd.
Record t : Type := mk {
  marketplace : bool;
  prices : bool;
  landPartPrices : bool;
  other : string
}.
End SupplierEnd.

Record PainPoints : Type := mkPainPoints {
  customerEnd : CustomerEnd.t;
  internalOps : InternalOps.t;
  supplierEnd : SupplierEnd.t
}.

Record Photo : Type := mkPhoto {
  file : option File.t;
  previewUrl : string
}.

Record FormState : Type := mkForm {
  profiling : Profiling;
  painPoints : PainPoints;
  photo : Photo
}.

Definition initialForm : FormState :=
  {| profiling :=
       {| products := ["Tours & Experiences"];
          productsOther := "";
          audience := ["Direct Consumers"];
          audienceOther := "";
          teamSize := 12 |};
     painPoints :=
       {| customerEnd := CustomerEnd.mk false false false "";
          internalOps := InternalOps.mk false false false false false false "";
          supplierEnd := SupplierEnd.mk false false false "" |};
     photo := {| file := None; previewUrl := "" |} |}.

(** The wire document stored in the [data] column. *)
Module WirePainPoints.
Record t : Type := mk {
  customer_end : CustomerEnd.t;
  internal_ops : InternalOps.t;
  supplier_end : SupplierEnd.t
}.
End WirePainPoints.

Module Payload.
Record t : Type := mk {
  profiling : Profiling;
  pain_points : WirePainPoints.t
}.
End Payload.

Module Step.
Record t : Type := mk { id : string; title : string }.
End Step.

Definition STEPS : list Step.t :=
  [ Step.mk "profiling" "Profiling";
    Step.mk "pain" "Pain Points";
    Step.mk "photo" "Photo";
    Step.mk "review" "Review & Submit" ].

(** [STEPS.length] *)
Definition STEPS_length : Z := Z.of_nat (List.length STEPS).

(** [STEPS[i]]: [undefined] outside the array. *)
Definition STEPS_at (i : Z) : option Step.t :=
  if i <? 0 then None else nth_error STEPS (Z.to_nat i).

(* ------------------------------------------------------------------ *)
(** * Pure functions of the component *)

Definition validateStep (stepId : string) (form : FormState) : JsVal :=
  if String.eqb stepId "profiling" then
    let p := profiling form in
    let productsOk :=
      and_ (VBool (0 <? Z.of_nat (List.length (products p))))
           (or_ (VBool (negb (includes (products p) "Other")))
                (VStr (trim (productsOther p)))) in
    let audienceOk :=
      and_ (VBool (0 <? Z.of_nat (List.length (audience p))))
           (or_ (VBool (negb (includes (audience p) "Other")))
                (VStr (trim (audienceOther p)))) in
    and_ productsOk audienceOk
  else if String.eqb stepId "pain" then VBool true
  else if String.eqb stepId "photo" then VBool true
  else VBool true.

Definition buildPayload (form : FormState) : Payload.t :=
  {| Payload.profiling := profiling form;
     Payload.pain_points :=
       {| WirePainPoints.customer_end := customerEnd (painPoints form);
          WirePainPoints.internal_ops := internalOps (painPoints form);
          WirePainPoints.supplier_end := supplierEnd (painPoints form) |} |}.

(** [teamLabel] of [renderProfiling]. *)
Definition teamLabel (form : FormState) : string :=
  if 100 <=? teamSize (profiling form) then "100+"
  else ofNumber (teamSize (profiling form)).

(** The text after "Team size:" in [renderReview]. *)
Definition reviewTeamSize (form : FormState) : string :=
  if 100 <=? teamSize (profiling form) then "100+"
  else ofNumber (teamSize (profiling form)).

(* ------------------------------------------------------------------ *)
(** * Component state *)

Inductive StatusState : Type := Idle | Loading | Success | Error.

Module Status.
Record t : Type := mk { state : StatusState; message : string }.
End Status.

(** The callback handed to [setTimeout] after a successful submission;
    it closes over [form.photo.previewUrl]. *)
Module Timer.
Record t : Type := mk { delay : Z; capturedPreviewUrl : string }.
End Timer.

(** The [useState] cells of [App], the file input behind
    [fileInputRef] ([None] while the ref is [null]), the pending
    timers and the object URLs revoked so far. *)
Record App : Type := mkApp {
  stepIndex : Z;
  form : FormState;
  status : Status.t;
  consent : bool;
  showSuccess : bool;
  fileInput : option string;
  timers : list Timer.t;
  revoked : list string
}.

Definition initialApp : App :=
  {| stepIndex := 0;
     form := initialForm;
     status := Status.mk Idle "";
     consent := true;
     showSuccess := false;
     fileInput := None;
     timers := [];
     revoked := [] |}.

Definition setStepIndex (f : Z -> Z) (a : App) : App :=
  mkApp (f (stepIndex a)) (form a) (status a) (consent a) (showSuccess a)
        (fileInput a) (timers a) (revoked a).

Definition setForm (f : FormState -> FormState) (a : App) : App :=
  mkApp (stepIndex a) (f (form a)) (status a) (consent a) (showSuccess a)
        (fileInput a) (timers a) (revoked a).

Definition setStatus (s : Status.t) (a : App) : App :=
  mkApp (stepIndex a) (form a) s (consent a) (showSuccess a)
        (fileInput a) (timers a) (revoked a).

Definition setConsent (c : bool) (a : App) : App :=
  mkApp (stepIndex a) (form a) (status a) c (showSuccess a)
        (fileInput a) (timers a) (revoked a).

Definition setShowSuccess (b : bool) (a : App) : App :=
  mkApp (stepIndex a) (form a) (status a) (consent a) b
        (fileInput a) (timers a) (revoked a).

Definition setTimeout (t : Timer.t) (a : App) : App :=
  mkApp (stepIndex a) (form a) (status a) (consent a) (showSuccess a)
        (fileInput a) (timers a ++ [t]) (revoked a).

(** [URL.revokeObjectURL(url)] *)
Definition revokeObjectURL (url : string) (a : App) : App :=
  mkApp (stepIndex a) (form a) (status a) (consent a) (showSuccess a)
        (fileInput a) (timers a) (revoked a ++ [url]).

(** [if (fileInputRef.current) fileInputRef.current.value = ''] *)
Definition clearFileInput (a : App) : App :=
  mkApp (stepIndex a) (form a) (status a) (consent a) (showSuccess a)
        (match fileInput a with Some _ => Some "" | None => None end)
        (timers a) (revoked a).

(** The calls [updateProfiling(field, value)] that the component makes. *)
Inductive ProfilingField : Type :=
| FProducts (v : list string)
| FProductsOther (v : string)
| FAudience (v : list string)
| FAudienceOther (v : string)
| FTeamSize (v : Z).

Definition updateProfiling (fv : ProfilingField) (a : App) : App :=
  setForm (fun prev =>
    let p := profiling prev in
    mkForm
      match fv with
      | FProducts v => mkProfiling v (productsOther p) (audience p) (audienceOther p) (teamSize p)
      | FProductsOther v => mkProfiling (products p) v (audience p) (audienceOther p) (teamSize p)
      | FAudience v => mkProfiling (products p) (productsOther p) v (audienceOther p) (teamSize p)
      | FAudienceOther v => mkProfiling (products p) (productsOther p) (audience p) v (teamSize p)
      | FTeamSize v => mkProfiling (products p) (productsOther p) (audience p) (audienceOther p) v
      end
      (painPoints prev) (photo prev)) a.

(** [handleFileChange]: [picked] is [event.target.files?.[0]] and
    [objectUrl] what [URL.createObjectURL] returns for it. *)
Definition handleFileChange (picked : option File.t) (objectUrl : string) (a : App) : App :=
  match picked with
  | None => a
  | Some f =>
      if negb (startsWith (File.type f) "image/") then
        setStatus (Status.mk Error "Please select an image file.") a
      else
        setForm (fun prev =>
          mkForm (profiling prev) (painPoints prev) (mkPhoto (Some f) objectUrl)) a
  end.

Definition handleRetake (a : App) : App :=
  let a1 := match previewUrl (photo (form a)) with
            | EmptyString => a
            | url => revokeObjectURL url a
            end in
  let a2 := setForm (fun prev =>
              mkForm (profiling prev) (painPoints prev) (mkPhoto None "")) a1 in
  clearFileInput a2.

(** [const step = STEPS[stepIndex]] *)
Definition step (a : App) : option Step.t := STEPS_at (stepIndex a).

(** [canProceed]: reading [step.id] throws while [step] is
    [undefined], which is [None] here. *)
Definition canProceed (a : App) : option JsVal :=
  match step a with
  | Some s => Some (validateStep (Step.id s) (form a))
  | None => None
  end.

Definition nextStep (a : App) : option App :=
  match canProceed a with
  | None => None
  | Some ok =>
      if negb (truthy ok) then
        Some (setStatus (Status.mk Error "Please complete this step to continue.") a)
      else
        Some (setStepIndex (fun prev => Z.min (prev + 1) (STEPS_length - 1))
                (setStatus (Status.mk Idle "") a))
  end.

Definition prevStep (a : App) : App :=
  setStepIndex (fun prev => Z.max (prev - 1) 0) (setStatus (Status.mk Idle "") a).

(** The body of the [setTimeout] callback of [handleSubmit]. *)
Definition runTimer (t : Timer.t) (a : App) : App :=
  let a1 := setShowSuccess false a in
  let a2 := setStatus (Status.mk Idle "") a1 in
  let a3 := setForm (fun _ => initialForm) a2 in
  let a4 := setConsent true a3 in
  let a5 := setStepIndex (fun _ => 0) a4 in
  let a6 := match Timer.capturedPreviewUrl t with
            | EmptyString => a5
            | url => revokeObjectURL url a5
            end in
  clearFileInput a6.

(** What a user (or a timer) can do to the wizard between renders. *)
Inductive Action : Type :=
| ANext
| APrev
| AEdit (f : FormState -> FormState)
| AConsent (c : bool)
| ATimer (t : Timer.t).

Definition act (x : Action) (a : App) : option App :=
  match x with
  | ANext => nextStep a
  | APrev => match step a with Some _ => Some (prevStep a) | None => None end
  | AEdit f => match step a with Some _ => Some (setForm f a) | None => None end
  | AConsent c => match step a with Some _ => Some (setConsent c a) | None => None end
  | ATimer t => Some (runTimer t a)
  end.

Fixpoint runActions (xs : list Action) (a : App) : option App :=
  match xs with
  | [] => Some a
  | x :: rest =>
      match act x a with
      | Some a' => runActions rest a'
      | None => None
      end
  end.

(* ------------------------------------------------------------------ *)
(** * The remote collaborators *)

(** A thrown or returned error object; [message] may be missing. *)
Module JsError.
Record t : Type := mk { message : option string }.
End JsError.

(** A row of the [surveys] table (README, Setup 2). *)
Module SurveyRecord.
Record t : Type := mk {
  id : string;
  created_at : string;
  data : Payload.t;
  photo_path : option string;
  photo_url : option string
}.
End SurveyRecord.

(** The object given to [insert([...])]. *)
Module InsertRow.
Record t : Type := mk { data : Payload.t; created_at : string }.
End InsertRow.

(** The third argument of [upload]. *)
Module UploadOptions.
Record t : Type := mk { contentType : string; upsert : bool }.
End UploadOptions.

(** The object given to [update({...})]. *)
Module PhotoPatch.
Record t : Type := mk { photo_path : string; photo_url : option string }.
End PhotoPatch.

(** [{ data, error }] of [insert(...).select().single()]. *)
Module InsertReply.
Record t : Type := mk { data : option SurveyRecord.t; error : option JsError.t }.
End InsertReply.

(** [{ error }] of [upload] and of [update(...).eq(...)]. *)
Module ErrorReply.
Record t : Type := mk { error : option JsError.t }.
End ErrorReply.

(** [{ data }] of [getPublicUrl], with [data.publicUrl]. *)
Module PublicUrlReply.
Record t : Type := mk { data : option (option string) }.
End PublicUrlReply.

(** The [supabase] client as [handleSubmit] uses it: four operations
    over some remote state.  [getPublicUrl] is synchronous and only
    reads. *)
Record Backend : Type := mkBackend {
  Remote : Type;
  insert : InsertRow.t -> Remote -> InsertReply.t * Remote;
  upload : string -> File.t -> UploadOptions.t -> Remote -> ErrorReply.t * Remote;
  getPublicUrl : string -> Remote -> PublicUrlReply.t;
  update : PhotoPatch.t -> string -> Remote -> ErrorReply.t * Remote
}.

(** One remote call with the reply it got. *)
Inductive Event : Type :=
| EInsert (row : InsertRow.t) (reply : InsertReply.t)
| EUpload (path : string) (f : File.t) (opts : UploadOptions.t) (reply : ErrorReply.t)
| EGetPublicUrl (path : string) (reply : PublicUrlReply.t)
| EUpdate (patch : PhotoPatch.t) (id : string) (reply : ErrorReply.t).

Definition isInsert (e : Event) : bool :=
  match e with EInsert _ _ => true | _ => false end.

Definition isUpdate (e : Event) : bool :=
  match e with EUpdate _ _ _ => true | _ => false end.

(** Calls on [supabase.storage]. *)
Definition isBlobStoreCall (e : Event) : bool :=
  match e with EUpload _ _ _ _ | EGetPublicUrl _ _ => true | _ => false end.

Definition countCalls (p : Event -> bool) (tr : list Event) : nat :=
  List.length (filter p tr).

(** The two clock readings of one submission:
    [new Date().toISOString()] and [Date.now()]. *)
Record Clock : Type := mkClock { toISOString : string; now : Z }.

(* ------------------------------------------------------------------ *)
(** * The storage key *)

(** [form.photo.file.name.split('.').pop()] *)
Definition fileExt (f : File.t) : option string := pop (split "." (File.name f)).

(** [`survey-${surveyId}-${Date.now()}.${fileExt}`] *)
Definition fileName (surveyId : string) (now : Z) (f : File.t) : string :=
  "survey-" ++ surveyId ++ "-" ++ ofNumber now ++ "." ++ ofMaybe (fileExt f).

(** [`survey-photos/${fileName}`] *)
Definition filePath (surveyId : string) (now : Z) (f : File.t) : string :=
  "survey-photos/" ++ fileName surveyId now f.

Arguments filePath : simpl never.

(* ------------------------------------------------------------------ *)
(** * The submission sequence *)

Section Submission.

Variable B : Backend.

Record World : Type := mkWorld {
  app : App;
  remote : Remote B;
  trace : list Event
}.

Inductive Outcome (A : Type) : Type :=
| Returned (a : A)
| Thrown (e : JsError.t).
Arguments Thrown {A} e.

(** State over [World], with JavaScript exceptions. *)
Definition M (A : Type) : Type := World -> Outcome A * World.

Definition ret {A} (a : A) : M A := fun w => (Returned a, w).

Definition bind {A C} (m : M A) (k : A -> M C) : M C :=
  fun w =>
    match m w with
    | (Returned a, w') => k a w'
    | (Thrown e, w') => (Thrown e, w')
    end.

Definition throw {A} (e : JsError.t) : M A := fun w => (Thrown e, w).

(** [try { body } catch (error) { handler }] *)
Definition tryCatch {A} (body : M A) (handler : JsError.t -> M A) : M A :=
  fun w =>
    match body w with
    | (Returned a, w') => (Returned a, w')
    | (Thrown e, w') => handler e w'
    end.

Local Notation "x <- m ;; k" := (bind m (fun x => k))
  (at level 61, m at next level, right associativity).
Local Notation "m ;; k" := (bind m (fun _ => k))
  (at level 61, right associativity).

Definition getApp : M App := fun w => (Returned (app w), w).

Definition modifyApp (f : App -> App) : M unit :=
  fun w => (Returned tt, mkWorld (f (app w)) (remote w) (trace w)).

Definition record (e : Event) (r : Remote B) : World -> World :=
  fun w => mkWorld (app w) r (trace w ++ [e]).

(** [await supabase.from('surveys').insert([row]).select().single()] *)
Definition awaitInsert (row : InsertRow.t) : M InsertReply.t :=
  fun w => let (reply, r) := insert B row (remote w) in
           (Returned reply, record (EInsert row reply) r w).

(** [await supabase.storage.from('survey-uploads').upload(path, f, opts)] *)
Definition awaitUpload (path : string) (f : File.t) (opts : UploadOptions.t)
  : M ErrorReply.t :=
  fun w => let (reply, r) := upload B path f opts (remote w) in
           (Returned reply, record (EUpload path f opts reply) r w).

(** [supabase.storage.from('survey-uploads').getPublicUrl(path)] *)
Definition callGetPublicUrl (path : string) : M PublicUrlReply.t :=
  fun w => let reply := getPublicUrl B path (remote w) in
           (Returned reply, record (EGetPublicUrl path reply) (remote w) w).

(** [await supabase.from('surveys').update(patch).eq('id', id)] *)
Definition awaitUpdate (patch : PhotoPatch.t) (id : string) : M ErrorReply.t :=
  fun w => let (reply, r) := update B patch id (remote w) in
           (Returned reply, record (EUpdate patch id reply) r w).

(** [if (err) throw err] *)
Definition throwIf (err : option JsError.t) : M unit :=
  match err with
  | Some e => throw e
  | None => ret tt
  end.

(** The [TypeError] of reading [.id] of [null]. *)
Definition nullIdError : JsError.t :=
  JsError.mk (Some "Cannot read properties of null (reading 'id')").

(** [surveyRow.id] *)
Definition readId (surveyRow : option SurveyRecord.t) : M string :=
  match surveyRow with
  | Some row => ret (SurveyRecord.id row)
  | None => throw nullIdError
  end.

(** [error.message || 'Submission failed.'] *)
Definition messageOr (e : JsError.t) (fallback : string) : string :=
  match JsError.message e with
  | Some (String c s) => String c s
  | _ => fallback
  end.

(** [publicData?.publicUrl ?? null] *)
Definition publicUrlOrNull (reply : PublicUrlReply.t) : option string :=
  match PublicUrlReply.data reply with
  | Some u => u
  | None => None
  end.

(** The [try] block of [handleSubmit]; [form] is the render's form. *)
Definition submitBody (clk : Clock) (form : FormState) : M unit :=
  let payload := buildPayload form in
  ins <- awaitInsert (InsertRow.mk payload (toISOString clk)) ;;
  throwIf (InsertReply.error ins) ;;
  surveyId <- readId (InsertReply.data ins) ;;
  match file (photo form) with
  | Some f =>
      let path := filePath surveyId (now clk) f in
      up <- awaitUpload path f (UploadOptions.mk (File.type f) false) ;;
      throwIf (ErrorReply.error up) ;;
      publicData <- callGetPublicUrl path ;;
      upd <- awaitUpdate (PhotoPatch.mk path (publicUrlOrNull publicData)) surveyId ;;
      throwIf (ErrorReply.error upd)
  | None => ret tt
  end ;;
  modifyApp (setStatus (Status.mk Success "Survey submitted successfully.")) ;;
  modifyApp (setShowSuccess true) ;;
  modifyApp (setTimeout (Timer.mk 1800 (previewUrl (photo form)))).

Definition handleSubmit (clk : Clock) : M unit :=
  a <- getApp ;;
  if negb (consent a) then
    modifyApp (setStatus (Status.mk Error "Please confirm consent to submit."))
  else
    modifyApp (setStatus (Status.mk Loading "Submitting...")) ;;
    tryCatch (submitBody clk (form a))
             (fun error =>
                modifyApp (setStatus (Status.mk Error (messageOr error "Submission failed.")))).

(** One click on "Submit Survey": the component state, the remote
    state and the calls made, starting from an empty trace. *)
Definition submit (clk : Clock) (a : App) (r : Remote B) : World :=
  snd (handleSubmit clk (mkWorld a r [])).

End Submission.

Arguments Thrown {A} e.
Arguments Returned {A} a.

(* ------------------------------------------------------------------ *)
(** * A reference backend *)

Module SurveyStore.

(** The [surveys] table and the [survey-uploads] bucket. *)
Record Store : Type := mkStore {
  surveys : list SurveyRecord.t;
  survey_uploads : list (string * File.t)
}.

Definition empty : Store := mkStore [] [].

(** What the environment decides for one submission: the identifier
    the server generates, whether a call is refused (unreachable
    store, rejected row, denied upload), and what URL resolution
    answers. *)
Record Plan : Type := mkPlan {
  nextId : string;
  insertFault : option JsError.t;
  uploadFault : option JsError.t;
  updateFault : option JsError.t;
  publicUrlFor : string -> PublicUrlReply.t
}.

Definition hasId (id : string) (s : Store) : bool :=
  existsb (fun r => String.eqb (SurveyRecord.id r) id) (surveys s).

Definition hasKey (key : string) (s : Store) : bool :=
  existsb (fun kv => String.eqb (fst kv) key) (survey_uploads s).

Definition duplicateKey : JsError.t :=
  JsError.mk (Some "duplicate key value violates unique constraint").

Definition alreadyExists : JsError.t :=
  JsError.mk (Some "The resource already exists").

(** Modelled from the spec: the Record Store's insert, which lives
    behind [supabase] ([src/supabaseClient] and the service are not
    in the sources).  Section 4.2 step 3 and section 6: a failed
    insert leaves no record; a successful one creates a record with
    a server-assigned primary key and null photo fields, and returns
    it. *)
Definition insertRow (p : Plan) (row : InsertRow.t) (s : Store)
  : InsertReply.t * Store :=
  match insertFault p with
  | Some e => (InsertReply.mk None (Some e), s)
  | None =>
      if hasId (nextId p) s then (InsertReply.mk None (Some duplicateKey), s)
      else
        let r := SurveyRecord.mk (nextId p) (InsertRow.created_at row)
                   (InsertRow.data row) None None in
        (InsertReply.mk (Some r) None,
         mkStore (surveys s ++ [r]) (survey_uploads s))
  end.

(** Modelled from the spec: the Blob Store's upload (same missing
    client).  Section 4.2 step 6: a non-overwriting upload fails
    rather than replace an existing object; a failed upload stores
    nothing. *)
Definition uploadObject (p : Plan) (key : string) (f : File.t)
           (opts : UploadOptions.t) (s : Store) : ErrorReply.t * Store :=
  match uploadFault p with
  | Some e => (ErrorReply.mk (Some e), s)
  | None =>
      if hasKey key s then
        if UploadOptions.upsert opts then
          (ErrorReply.mk None,
           mkStore (surveys s)
             (map (fun kv => if String.eqb (fst kv) key then (key, f) else kv)
                  (survey_uploads s)))
        else (ErrorReply.mk (Some alreadyExists), s)
      else (ErrorReply.mk None, mkStore (surveys s) (survey_uploads s ++ [(key, f)]))
  end.

(** Modelled from the spec: the Record Store's update-by-id (same
    missing client).  Section 4.2 step 8: a rejected update changes
    nothing; an accepted one sets [photo_path] and [photo_url] of
    the rows with that id. *)
Definition updateRow (p : Plan) (patch : PhotoPatch.t) (id : string) (s : Store)
  : ErrorReply.t * Store :=
  match updateFault p with
  | Some e => (ErrorReply.mk (Some e), s)
  | None =>
      (ErrorReply.mk None,
       mkStore
         (map (fun r =>
                 if String.eqb (SurveyRecord.id r) id then
                   SurveyRecord.mk (SurveyRecord.id r) (SurveyRecord.created_at r)
                     (SurveyRecord.data r)
                     (Some (PhotoPatch.photo_path patch))
                     (PhotoPatch.photo_url patch)
                 else r)
              (surveys s))
         (survey_uploads s))
  end.

Definition backend (p : Plan) : Backend :=
  mkBackend (insertRow p) (uploadObject p)
            (fun key (_ : Store) => publicUrlFor p key) (updateRow p).

(** A plan under which nothing fails and URLs resolve. *)
Definition happyPlan (id : string) : Plan :=
  mkPlan id None None None
    (fun key => PublicUrlReply.mk (Some (Some ("https://cdn.example/" ++ key)))).

End SurveyStore.

(* ------------------------------------------------------------------ *)
(** * Notions taken from the specification's wording *)

(** "empty/whitespace": every character of the text is white space. *)
Fixpoint isBlank (s : string) : bool :=
  match s with
  | EmptyString => true
  | String c r => isWhiteSpace c && isBlank r
  end.

(** "the original file's extension": what follows the last ['.'] of
    the file's name; a name without ['.'] has no extension. *)
Fixpoint originalExtension (name : string) : option string :=
  match name with
  | EmptyString => None
  | String c r =>
      match originalExtension r with
      | Some e => Some e
      | None => if Ascii.eqb c "." then Some r else None
      end
  end.

(** "key prefix survey-photos/; key format
    survey-<record-id>-<epoch-millis>.<original-extension>" *)
Definition specifiedKey (recordId : string) (epochMillis : Z) (extension : string)
  : string :=
  "survey-photos/" ++ "survey-" ++ recordId ++ "-" ++ ofNumber epochMillis
    ++ "." ++ extension.

(** The wizard invariant: [stepIndex] addresses an entry of [STEPS]. *)
Definition inBounds (a : App) : Prop :=
  0 <= stepIndex a <= STEPS_length - 1.

(** The test [validateStep] applies to each required group
    ([productsOk], [audienceOk]), named for the proofs. *)
Definition groupOk (selected : list string) (otherText : string) : JsVal :=
  and_ (VBool (0 <? Z.of_nat (List.length selected)))
       (or_ (VBool (negb (includes selected "Other"))) (VStr (trim otherText))).

(* ------------------------------------------------------------------ *)
(** * The runs of one submission *)

(** The component state in which [handleSubmit] ends through its
    [catch] clause, and after the [try] block ran to its end. *)
Definition failedWith (e : JsError.t) (a : App) : App :=
  setStatus (Status.mk Error (messageOr e "Submission failed.")) a.

Definition succeeded (a : App) : App :=
  setTimeout (Timer.mk 1800 (previewUrl (photo (form a))))
    (setShowSuccess true
       (setStatus (Status.mk Success "Survey submitted successfully.") a)).

(** The row [handleSubmit] inserts. *)
Definition insertedRow (clk : Clock) (a : App) : InsertRow.t :=
  InsertRow.mk (buildPayload (form a)) (toISOString clk).

(** The paths through [handleSubmit], each with the replies that
    select it and the world it ends in.  [submit_runs] shows that
    every submission follows one of them. *)
Inductive Run (B : Backend) (clk : Clock) (a : App) (r : Remote B)
  : World B -> Prop :=
| RunNoConsent :
    consent a = false ->
    Run clk a r
      (mkWorld B (setStatus (Status.mk Error "Please confirm consent to submit.") a)
               r [])
| RunInsertFailed ins r1 e :
    consent a = true ->
    insert B (insertedRow clk a) r = (ins, r1) ->
    InsertReply.error ins = Some e ->
    Run clk a r (mkWorld B (failedWith e a) r1 [EInsert (insertedRow clk a) ins])
| RunInsertNoRow ins r1 :
    consent a = true ->
    insert B (insertedRow clk a) r = (ins, r1) ->
    InsertReply.error ins = None ->
    InsertReply.data ins = None ->
    Run clk a r
      (mkWorld B (failedWith nullIdError a) r1 [EInsert (insertedRow clk a) ins])
| RunDoneNoPhoto ins r1 row :
    consent a = true ->
    insert B (insertedRow clk a) r = (ins, r1) ->
    InsertReply.error ins = None ->
    InsertReply.data ins = Some row ->
    file (photo (form a)) = None ->
    Run clk a r (mkWorld B (succeeded a) r1 [EInsert (insertedRow clk a) ins])
| RunUploadFailed ins r1 row f up r2 e :
    consent a = true ->
    insert B (insertedRow clk a) r = (ins, r1) ->
    InsertReply.error ins = None ->
    InsertReply.data ins = Some row ->
    file (photo (form a)) = Some f ->
    let path := filePath (SurveyRecord.id row) (now clk) f in
    let opts := UploadOptions.mk (File.type f) false in
    upload B path f opts r1 = (up, r2) ->
    ErrorReply.error up = Some e ->
    Run clk a r
      (mkWorld B (failedWith e a) r2
         [EInsert (insertedRow clk a) ins; EUpload path f opts up])
| RunAttachFailed ins r1 row f up r2 upd r3 e :
    consent a = true ->
    insert B (insertedRow clk a) r = (ins, r1) ->
    InsertReply.error ins = None ->
    InsertReply.data ins = Some row ->
    file (photo (form a)) = Some f ->
    let path := filePath (SurveyRecord.id row) (now clk) f in
    let opts := UploadOptions.mk (File.type f) false in
    upload B path f opts r1 = (up, r2) ->
    ErrorReply.error up = None ->
    let url := getPublicUrl B path r2 in
    let patch := PhotoPatch.mk path (publicUrlOrNull url) in
    update B patch (SurveyRecord.id row) r2 = (upd, r3) ->
    ErrorReply.error upd = Some e ->
    Run clk a r
      (mkWorld B (failedWith e a) r3
         [EInsert (insertedRow clk a) ins; EUpload path f opts up;
          EGetPublicUrl path url; EUpdate patch (SurveyRecord.id row) upd])
| RunDone ins r1 row f up r2 upd r3 :
    consent a = true ->
    insert B (insertedRow clk a) r = (ins, r1) ->
    InsertReply.error ins = None ->
    InsertReply.data ins = Some row ->
    file (photo (form a)) = Some f ->
    let path := filePath (SurveyRecord.id row) (now clk) f in
    let opts := UploadOptions.mk (File.type f) false in
    upload B path f opts r1 = (up, r2) ->
    ErrorReply.error up = None ->
    let url := getPublicUrl B path r2 in
    let patch := PhotoPatch.mk path (publicUrlOrNull url) in
    update B patch (SurveyRecord.id row) r2 = (upd, r3) ->
    ErrorReply.error upd = None ->
    Run clk a r
      (mkWorld B (succeeded a) r3
         [EInsert (insertedRow clk a) ins; EUpload path f opts up;
          EGetPublicUrl path url; EUpdate patch (SurveyRecord.id row) upd]).

(* ------------------------------------------------------------------ *)
(** * Sample inputs *)

Definition sampleClock : Clock := mkClock "2024-05-01T10:00:00.000Z" 1714557600000.

Definition tripJpg : File.t := File.mk "trip.jpg" "image/jpeg" [].

(** A photo whose name carries no ['.'], as a camera or a content
    provider may hand over; its MIME type passes [handleFileChange]. *)
Definition dotlessPhoto : File.t := File.mk "photo" "image/jpeg" [].

(** The initial form with a photo chosen on the photo step. *)
Definition appWithPhoto (f : File.t) : App :=
  handleFileChange (Some f) "blob:preview" initialApp.

Definition refused (why : string) : JsError.t := JsError.mk (Some why).

(** Plans under which exactly one of the calls is refused, or the URL
    does not resolve. *)
Definition insertRefused : SurveyStore.Plan :=
  SurveyStore.mkPlan "7f3c" (Some (refused "permission denied for table surveys"))
    None None (fun _ => PublicUrlReply.mk None).

Definition uploadRefused : SurveyStore.Plan :=
  SurveyStore.mkPlan "7f3c" None (Some (refused "Bucket not found"))
    None (fun _ => PublicUrlReply.mk None).

Definition urlUnresolved : SurveyStore.Plan :=
  SurveyStore.mkPlan "7f3c" None None None (fun _ => PublicUrlReply.mk None).

(* ------------------------------------------------------------------ *)
(** * The remaining handlers *)

(** The [onChange] of an option's checkbox in [renderProfiling]:
    [checked ? [...current, option] : current.filter(item => item !== option)] *)
Definition toggled (checked : bool) (option : string) (current : list string)
  : list string :=
  if checked then (current ++ [option])%list
  else filter (fun item => negb (String.eqb item option)) current.

Definition toggleProduct (checked : bool) (option : string) (a : App) : App :=
  updateProfiling (FProducts (toggled checked option (products (profiling (form a))))) a.

Definition toggleAudience (checked : bool) (option : string) (a : App) : App :=
  updateProfiling (FAudience (toggled checked option (audience (profiling (form a))))) a.

(** The calls [updatePainPoints(group, field, value)] that
    [renderPainPoints] makes. *)
Inductive PainField : Type :=
| CustomerLms (v : bool)
| CustomerConversionTimeQuote (v : bool)
| CustomerRightCustomers (v : bool)
| CustomerOther (v : string)
| InternalFinance (v : bool)
| InternalReports (v : bool)
| InternalDk (v : bool)
| InternalDayToDayBookings (v : bool)
| InternalOnTripOps (v : bool)
| InternalTrainingNewJoinee (v : bool)
| InternalOther (v : string)
| SupplierMarketplace (v : bool)
| SupplierPrices (v : bool)
| SupplierLandPartPrices (v : bool)
| SupplierOther (v : string).

Definition updatePainPoints (fv : PainField) (a : App) : App :=
  setForm (fun prev =>
    let pp := painPoints prev in
    let c := customerEnd pp in
    let i := internalOps pp in
    let s := supplierEnd pp in
    let customer c' := mkPainPoints c' i s in
    let internal i' := mkPainPoints c i' s in
    let supplier s' := mkPainPoints c i s' in
    mkForm (profiling prev)
      match fv with
      | CustomerLms v =>
          customer (CustomerEnd.mk v (CustomerEnd.conversionTimeQuote c)
                      (CustomerEnd.rightCustomers c) (CustomerEnd.other c))
      | CustomerConversionTimeQuote v =>
          customer (CustomerEnd.mk (CustomerEnd.lms c) v
                      (CustomerEnd.rightCustomers c) (CustomerEnd.other c))
      | CustomerRightCustomers v =>
          customer (CustomerEnd.mk (CustomerEnd.lms c)
                      (CustomerEnd.conversionTimeQuote c) v (CustomerEnd.other c))
      | CustomerOther v =>
          customer (CustomerEnd.mk (CustomerEnd.lms c)
                      (CustomerEnd.conversionTimeQuote c)
                      (CustomerEnd.rightCustomers c) v)
      | InternalFinance v =>
          internal (InternalOps.mk v (InternalOps.reports i) (InternalOps.dk i)
                      (InternalOps.dayToDayBookings i) (InternalOps.onTripOps i)
                      (InternalOps.trainingNewJoinee i) (InternalOps.other i))
      | InternalReports v =>
          internal (InternalOps.mk (InternalOps.finance i) v (InternalOps.dk i)
                      (InternalOps.dayToDayBookings i) (InternalOps.onTripOps i)
                      (InternalOps.trainingNewJoinee i) (InternalOps.other i))
      | InternalDk v =>
          internal (InternalOps.mk (InternalOps.finance i) (InternalOps.reports i) v
                      (InternalOps.dayToDayBookings i) (InternalOps.onTripOps i)
                      (InternalOps.trainingNewJoinee i) (InternalOps.other i))
      | InternalDayToDayBookings v =>
          internal (InternalOps.mk (InternalOps.finance i) (InternalOps.reports i)
                      (InternalOps.dk i) v (InternalOps.onTripOps i)
                      (InternalOps.trainingNewJoinee i) (InternalOps.other i))
      | InternalOnTripOps v =>
          internal (InternalOps.mk (InternalOps.finance i) (InternalOps.reports i)
                      (InternalOps.dk i) (InternalOps.dayToDayBookings i) v
                      (InternalOps.trainingNewJoinee i) (InternalOps.other i))
      | InternalTrainingNewJoinee v =>
          internal (InternalOps.mk (InternalOps.finance i) (InternalOps.reports i)
                      (InternalOps.dk i) (InternalOps.dayToDayBookings i)
                      (InternalOps.onTripOps i) v (InternalOps.other i))
      | InternalOther v =>
          internal (InternalOps.mk (InternalOps.finance i) (InternalOps.reports i)
                      (InternalOps.dk i) (InternalOps.dayToDayBookings i)
                      (InternalOps.onTripOps i) (InternalOps.trainingNewJoinee i) v)
      | SupplierMarketplace v =>
          supplier (SupplierEnd.mk v (SupplierEnd.prices s)
                      (SupplierEnd.landPartPrices s) (SupplierEnd.other s))
      | SupplierPrices v =>
          supplier (SupplierEnd.mk (SupplierEnd.marketplace s) v
                      (SupplierEnd.landPartPrices s) (SupplierEnd.other s))
      | SupplierLandPartPrices v =>
          supplier (SupplierEnd.mk (SupplierEnd.marketplace s)
                      (SupplierEnd.prices s) v (SupplierEnd.other s))
      | SupplierOther v =>
          supplier (SupplierEnd.mk (SupplierEnd.marketplace s)
                      (SupplierEnd.prices s) (SupplierEnd.landPartPrices s) v)
      end
      (photo prev)) a.

(** The group an [updatePainPoints] call names. *)
Inductive PainGroup : Type := GCustomerEnd | GInternalOps | GSupplierEnd.

Definition groupOf (fv : PainField) : PainGroup :=
  match fv with
  | CustomerLms _ | CustomerConversionTimeQuote _ | CustomerRightCustomers _
  | CustomerOther _ => GCustomerEnd
  | InternalFinance _ | InternalReports _ | InternalDk _
  | InternalDayToDayBookings _ | InternalOnTripOps _
  | InternalTrainingNewJoinee _ | InternalOther _ => GInternalOps
  | SupplierMarketplace _ | SupplierPrices _ | SupplierLandPartPrices _
  | SupplierOther _ => GSupplierEnd
  end.

(** What the user can do on the photo step. *)
Inductive PhotoAction : Type :=
| Pick (picked : option File.t) (objectUrl : string)
| Retake.

Definition photoAct (x : PhotoAction) (a : App) : App :=
  match x with
  | Pick picked objectUrl => handleFileChange picked objectUrl a
  | Retake => handleRetake a
  end.

Fixpoint runPhotoActions (xs : list PhotoAction) (a : App) : App :=
  match xs with
  | [] => a
  | x :: rest => runPhotoActions rest (photoAct x a)
  end.

(** The footer and the review step: [disabled={stepIndex === 0}] on
    Back, Continue rendered unless [step.id === 'review'], and
    [disabled={status.state === 'loading'}] on Submit. *)
Definition backDisabled (a : App) : bool := stepIndex a =? 0.

Definition continueShown (a : App) : option bool :=
  match step a with
  | Some s => Some (negb (String.eqb (Step.id s) "review"))
  | None => None
  end.

Definition submitDisabled (a : App) : bool :=
  match Status.state (status a) with
  | Loading => true
  | _ => false
  end.

(* ------------------------------------------------------------------ *)
(** * Notions used to state further properties *)

(** The photo held by the form, if any, is an image by its MIME type. *)
Definition storedPhotoIsImage (a : App) : bool :=
  match file (photo (form a)) with
  | Some f => startsWith (File.type f) "image/"
  | None => true
  end.

(** A required group is complete: something is selected, and the free
    text is not blank when "Other" is among the selection. *)
Definition groupComplete (selected : list string) (otherText : string) : bool :=
  match selected with
  | [] => false
  | _ :: _ => negb (includes selected "Other") || negb (isBlank otherText)
  end.

(** The position of a call in the sequence insert, upload,
    getPublicUrl, update. *)
Definition callRank (e : Event) : nat :=
  match e with
  | EInsert _ _ => 0
  | EUpload _ _ _ _ => 1
  | EGetPublicUrl _ _ => 2
  | EUpdate _ _ _ => 3
  end.


Module SurveyStoreInv.
Import SurveyStore.

(** Every record that names a photo has that object in the bucket. *)
Definition photosLinked (s : Store) : Prop :=
  forall r key,
    In r (surveys s) -> SurveyRecord.photo_path r = Some key -> hasKey key s = true.


(** The row an insert creates. *)
Definition freshRow (p : Plan) (row : InsertRow.t) : SurveyRecord.t :=
  SurveyRecord.mk (nextId p) (InsertRow.created_at row) (InsertRow.data row)
    None None.

(** That row once the photo is attached. *)
Definition linkedRow (p : Plan) (row : InsertRow.t) (patch : PhotoPatch.t)
  : SurveyRecord.t :=
  SurveyRecord.mk (nextId p) (InsertRow.created_at row) (InsertRow.data row)
    (Some (PhotoPatch.photo_path patch)) (PhotoPatch.photo_url patch).

End SurveyStoreInv.

(* ================================================================== *)
(** * Properties *)

(* ------------------------------------------------------------------ *)
(** ** Strings *)

Lemma trimStart_blank (s : string) : isBlank s = true -> trimStart s = "".
Proof.
  induction s as [|c r IH]; simpl; [reflexivity|].
  intros H. apply andb_prop in H. destruct H as [Hc Hr].
  rewrite Hc. exact (IH Hr).
Qed.

Lemma trim_blank (s : string) : isBlank s = true -> trim s = "".
Proof.
  intros H. unfold trim. rewrite (trimStart_blank s H). reflexivity.
Qed.

Lemma split_nonempty (sep : ascii) (s : string) : split sep s <> [].
Proof.
  destruct s as [|c r]; simpl; [discriminate|].
  destruct (Ascii.eqb c sep); [discriminate|].
  destruct (split sep r); discriminate.
Qed.

(** How [split] and the extension of the specification relate: a
    text without ['.'] is its own single piece; otherwise there are
    at least two pieces and the last one is the extension. *)
Lemma split_dot_shape (s : string) :
  match originalExtension s with
  | None => split "." s = [s]
  | Some e => exists h t, split "." s = h :: t /\ t <> [] /\ pop t = Some e
  end.
Proof.
  induction s as [|c r IH]; simpl; [reflexivity|].
  destruct (originalExtension r) as [e|] eqn:He.
  - destruct IH as (h & t & Hs & Ht & Hp). rewrite Hs.
    destruct (Ascii.eqb c ".").
    + exists "", (h :: t). repeat split; [discriminate|].
      destruct t; [contradiction|exact Hp].
    + exists (String c h), t. auto.
  - rewrite IH. destruct (Ascii.eqb c ".").
    + exists "", [r]. repeat split. discriminate.
    + reflexivity.
Qed.

(** The last piece of a split drops everything up to the last
    separator, and is the whole text when there is none. *)
Lemma pop_split_dot (s : string) :
  pop (split "." s) = Some match originalExtension s with
                           | Some e => e
                           | None => s
                           end.
Proof.
  pose proof (split_dot_shape s) as H.
  destruct (originalExtension s) as [e|].
  - destruct H as (h & t & Hs & Ht & Hp). rewrite Hs.
    destruct t; [contradiction|exact Hp].
  - rewrite H. reflexivity.
Qed.

(* ------------------------------------------------------------------ *)
(** ** Payload builder *)

(** C7.  For every form state, [buildPayload] carries the profiling
    selections and the three pain-point groups unchanged under the
    wire names [profiling], [pain_points.customer_end],
    [pain_points.internal_ops] and [pain_points.supplier_end]; the
    photo has no influence on the result.  Being a function of the
    form alone, it is deterministic and touches no state. *)
Theorem buildPayload_verbatim (f : FormState) :
  Payload.profiling (buildPayload f) = profiling f
  /\ WirePainPoints.customer_end (Payload.pain_points (buildPayload f))
     = customerEnd (painPoints f)
  /\ WirePainPoints.internal_ops (Payload.pain_points (buildPayload f))
     = internalOps (painPoints f)
  /\ WirePainPoints.supplier_end (Payload.pain_points (buildPayload f))
     = supplierEnd (painPoints f)
  /\ (forall ph : Photo,
        buildPayload (mkForm (profiling f) (painPoints f) ph) = buildPayload f).
Proof.
  repeat split; reflexivity.
Qed.

(* ------------------------------------------------------------------ *)
(** ** Step validation *)

Lemma validate_profiling_unfold (f : FormState) :
  validateStep "profiling" f =
  and_ (and_ (VBool (0 <? Z.of_nat (List.length (products (profiling f)))))
             (or_ (VBool (negb (includes (products (profiling f)) "Other")))
                  (VStr (trim (productsOther (profiling f))))))
       (and_ (VBool (0 <? Z.of_nat (List.length (audience (profiling f)))))
             (or_ (VBool (negb (includes (audience (profiling f)) "Other")))
                  (VStr (trim (audienceOther (profiling f)))))).
Proof. reflexivity. Qed.

Lemma validate_profiling_groups (f : FormState) :
  validateStep "profiling" f =
  and_ (groupOk (products (profiling f)) (productsOther (profiling f)))
       (groupOk (audience (profiling f)) (audienceOther (profiling f))).
Proof. reflexivity. Qed.

Lemma groupOk_empty (otherText : string) : truthy (groupOk [] otherText) = false.
Proof. reflexivity. Qed.

Lemma groupOk_other_blank (selected : list string) (otherText : string) :
  includes selected "Other" = true -> isBlank otherText = true ->
  truthy (groupOk selected otherText) = false.
Proof.
  intros Hi Hb. unfold groupOk. rewrite Hi, (trim_blank _ Hb).
  destruct selected; reflexivity.
Qed.

Lemma and_falsy_l (a b : JsVal) : truthy a = false -> truthy (and_ a b) = false.
Proof. intros H. unfold and_. rewrite H. exact H. Qed.

Lemma and_falsy_r (a b : JsVal) : truthy b = false -> truthy (and_ a b) = false.
Proof. intros H. unfold and_. destruct (truthy a) eqn:Ha; assumption. Qed.

Lemma STEPS_at_0 : STEPS_at 0 = Some (Step.mk "profiling" "Profiling").
Proof. reflexivity. Qed.

(** C8.  On the profiling step, a form whose [products] or [audience]
    is empty, or contains "Other" while the matching free text is
    empty or white space only, fails validation, and [nextStep]
    rejects it: the step index stays put and the error banner is
    shown. *)
Theorem profiling_step_rejects_incomplete (a : App) :
  stepIndex a = 0 ->
  products (profiling (form a)) = []
  \/ audience (profiling (form a)) = []
  \/ (includes (products (profiling (form a))) "Other" = true
      /\ isBlank (productsOther (profiling (form a))) = true)
  \/ (includes (audience (profiling (form a))) "Other" = true
      /\ isBlank (audienceOther (profiling (form a))) = true) ->
  truthy (validateStep "profiling" (form a)) = false
  /\ nextStep a
     = Some (setStatus (Status.mk Error "Please complete this step to continue.") a)
  /\ option_map stepIndex (nextStep a) = Some 0.
Proof.
  intros Hi Hbad.
  assert (Hv : truthy (validateStep "profiling" (form a)) = false).
  { rewrite validate_profiling_groups.
    destruct Hbad as [H | [H | [[H1 H2] | [H1 H2]]]].
    - apply and_falsy_l. rewrite H. apply groupOk_empty.
    - apply and_falsy_r. rewrite H. apply groupOk_empty.
    - apply and_falsy_l. apply groupOk_other_blank; assumption.
    - apply and_falsy_r. apply groupOk_other_blank; assumption. }
  assert (Hn : nextStep a
     = Some (setStatus (Status.mk Error "Please complete this step to continue.") a)).
  { unfold nextStep, canProceed, step. rewrite Hi, STEPS_at_0.
    cbn [Step.id]. rewrite Hv. reflexivity. }
  repeat split; [exact Hv | exact Hn |].
  rewrite Hn. cbn [option_map setStatus stepIndex]. rewrite Hi. reflexivity.
Qed.

(** C8 at a concrete form: "Other" ticked among the products with a
    free text of two spaces. *)
Lemma profiling_step_rejects_incomplete_witness :
  let a := updateProfiling (FProductsOther "  ")
             (updateProfiling (FProducts ["Tours & Experiences"; "Other"]) initialApp) in
  truthy (validateStep "profiling" (form a)) = false
  /\ nextStep a
     = Some (setStatus (Status.mk Error "Please complete this step to continue.") a)
  /\ option_map stepIndex (nextStep a) = Some 0.
Proof.
  apply profiling_step_rejects_incomplete.
  - reflexivity.
  - right. right. left. split; reflexivity.
Defined.

(* ------------------------------------------------------------------ *)
(** ** Team size *)

(** C9.  With the team size at its maximum of 100, both summaries
    (the slider label of the profiling step and the review step) show
    "100+", while the form and the payload built from it hold the
    integer 100. *)
Theorem team_size_sentinel (f : FormState) :
  teamSize (profiling f) = 100 ->
  teamLabel f = "100+"
  /\ reviewTeamSize f = "100+"
  /\ teamSize (Payload.profiling (buildPayload f)) = 100.
Proof.
  intros H. unfold teamLabel, reviewTeamSize. cbn [buildPayload Payload.profiling].
  rewrite H. repeat split.
Qed.

(** C9 after the slider has been moved to 100. *)
Lemma team_size_sentinel_witness :
  let f := form (updateProfiling (FTeamSize 100) initialApp) in
  teamSize (profiling f) = 100
  /\ teamLabel f = "100+"
  /\ reviewTeamSize f = "100+"
  /\ teamSize (Payload.profiling (buildPayload f)) = 100.
Proof.
  split; [reflexivity|].
  apply team_size_sentinel. reflexivity.
Defined.

(* ------------------------------------------------------------------ *)
(** ** Wizard navigation *)

Lemma STEPS_length_4 : STEPS_length = 4.
Proof. reflexivity. Qed.

Lemma inBounds_step (a : App) : inBounds a -> exists s, step a = Some s.
Proof.
  unfold inBounds, step. rewrite STEPS_length_4. intros H.
  assert (Hc : stepIndex a = 0 \/ stepIndex a = 1 \/ stepIndex a = 2 \/ stepIndex a = 3)
    by lia.
  destruct Hc as [-> | [-> | [-> | ->]]]; eexists; reflexivity.
Qed.

Lemma nextStep_inBounds (a : App) :
  inBounds a -> exists a', nextStep a = Some a' /\ inBounds a'.
Proof.
  intros H. destruct (inBounds_step H) as [s Hs].
  unfold nextStep, canProceed. rewrite Hs.
  destruct (negb (truthy (validateStep (Step.id s) (form a)))).
  - eexists. split; [reflexivity | exact H].
  - eexists. split; [reflexivity|].
    unfold inBounds in *. cbn [setStepIndex setStatus stepIndex].
    rewrite STEPS_length_4 in *. lia.
Qed.

Lemma prevStep_inBounds (a : App) : inBounds a -> inBounds (prevStep a).
Proof.
  unfold inBounds, prevStep. cbn [setStepIndex setStatus stepIndex].
  rewrite STEPS_length_4. lia.
Qed.

Lemma runTimer_inBounds (t : Timer.t) (a : App) : inBounds (runTimer t a).
Proof.
  unfold inBounds, runTimer. rewrite STEPS_length_4.
  destruct (Timer.capturedPreviewUrl t); cbn; lia.
Qed.

Lemma act_inBounds (x : Action) (a : App) :
  inBounds a -> exists a', act x a = Some a' /\ inBounds a'.
Proof.
  intros H. destruct x as [| | f | c | t]; cbn [act].
  - exact (nextStep_inBounds H).
  - destruct (inBounds_step H) as [s ->]. eexists. split; [reflexivity|].
    exact (prevStep_inBounds H).
  - destruct (inBounds_step H) as [s ->]. eexists. split; [reflexivity | exact H].
  - destruct (inBounds_step H) as [s ->]. eexists. split; [reflexivity | exact H].
  - eexists. split; [reflexivity | apply runTimer_inBounds].
Qed.

Lemma runActions_inBounds (xs : list Action) :
  forall a, inBounds a -> exists a', runActions xs a = Some a' /\ inBounds a'.
Proof.
  induction xs as [|x rest IH]; intros a H; cbn [runActions].
  - exists a. split; [reflexivity | exact H].
  - destruct (act_inBounds x H) as (a1 & -> & H1). exact (IH a1 H1).
Qed.

(** [prevStep] stops at the first step. *)
Lemma prevStep_clamps (a : App) : stepIndex a = 0 -> stepIndex (prevStep a) = 0.
Proof.
  intros Hz. unfold prevStep. cbn [setStepIndex setStatus stepIndex]. lia.
Qed.

(** [nextStep] stops at the last step. *)
Lemma nextStep_clamps (a : App) :
  stepIndex a = STEPS_length - 1 ->
  exists a', nextStep a = Some a' /\ stepIndex a' = STEPS_length - 1.
Proof.
  intros Hlast.
  assert (Hb : inBounds a) by (unfold inBounds; rewrite STEPS_length_4 in *; lia).
  destruct (inBounds_step Hb) as [s Hs].
  unfold nextStep, canProceed. rewrite Hs.
  destruct (negb (truthy (validateStep (Step.id s) (form a)))).
  - eexists. split; [reflexivity | exact Hlast].
  - eexists. split; [reflexivity|].
    cbn [setStepIndex setStatus stepIndex]. lia.
Qed.

(** C10.  From the initial state, whatever the user does (Continue,
    Back, edits of the form, the consent box, the reset timer), the
    component keeps rendering and [stepIndex] stays between 0 and
    [STEPS.length - 1], so [STEPS[stepIndex]] is defined. *)
Theorem stepIndex_always_in_bounds (xs : list Action) :
  exists a,
    runActions xs initialApp = Some a
    /\ 0 <= stepIndex a <= STEPS_length - 1
    /\ (exists s, STEPS_at (stepIndex a) = Some s).
Proof.
  assert (H0 : inBounds initialApp) by (unfold inBounds; cbn; lia).
  destruct (runActions_inBounds xs H0) as (a & Hr & Hb).
  exists a. split; [exact Hr|]. split; [exact Hb|].
  exact (inBounds_step Hb).
Qed.

(* ------------------------------------------------------------------ *)
(** ** The submission sequence *)

Section SubmissionFacts.

Variable B : Backend.
Variable clk : Clock.

(** Every submission follows one of the paths of [Run]; since
    [submit] is a total function, every submission terminates. *)
Lemma submit_runs (a : App) (r : Remote B) : Run clk a r (submit B clk a r).
Proof.
  unfold submit, handleSubmit, bind, getApp. cbn.
  destruct (consent a) eqn:Hc; cbn.
  - unfold tryCatch, submitBody, bind, awaitInsert. cbn.
    destruct (insert B (InsertRow.mk (buildPayload (form a)) (toISOString clk)) r)
      as [ins r1] eqn:Hins. cbn.
    destruct (InsertReply.error ins) as [e|] eqn:He; cbn.
    { exact (@RunInsertFailed B clk a r _ _ _ Hc Hins He). }
    destruct (InsertReply.data ins) as [row|] eqn:Hd; cbn.
    2:{ exact (@RunInsertNoRow B clk a r _ _ Hc Hins He Hd). }
    destruct (file (photo (form a))) as [f|] eqn:Hf; cbn.
    2:{ exact (@RunDoneNoPhoto B clk a r _ _ _ Hc Hins He Hd Hf). }
    unfold bind, awaitUpload. cbn.
    destruct (upload B (filePath (SurveyRecord.id row) (now clk) f) f
                (UploadOptions.mk (File.type f) false) r1) as [up r2] eqn:Hup. cbn.
    destruct (ErrorReply.error up) as [e|] eqn:Hue; cbn.
    { exact (@RunUploadFailed B clk a r _ _ _ _ _ _ _ Hc Hins He Hd Hf Hup Hue). }
    unfold awaitUpdate. cbn.
    destruct (update B _ (SurveyRecord.id row) r2) as [upd r3] eqn:Hupd. cbn.
    destruct (ErrorReply.error upd) as [e|] eqn:Hde; cbn.
    { exact (@RunAttachFailed B clk a r _ _ _ _ _ _ _ _ _ Hc Hins He Hd Hf Hup Hue Hupd Hde). }
    exact (@RunDone B clk a r _ _ _ _ _ _ _ _ Hc Hins He Hd Hf Hup Hue Hupd Hde).
  - apply RunNoConsent. exact Hc.
Qed.

End SubmissionFacts.

(** Case analysis on the path a submission took. *)
Ltac run_cases HR :=
  destruct HR as
    [ Hcons
    | ins r1 e Hcons Hins He
    | ins r1 Hcons Hins He Hd
    | ins r1 row0 Hcons Hins He Hd Hf
    | ins r1 row0 f0 up0 r2 e Hcons Hins He Hd Hf path0 opts0 Hup0 Hue
    | ins r1 row0 f0 up0 r2 upd r3 e Hcons Hins He Hd Hf path0 opts0 Hup0 Hue
        url0 patch0 Hupd Hde
    | ins r1 row0 f0 up0 r2 upd r3 Hcons Hins He Hd Hf path0 opts0 Hup0 Hue
        url0 patch0 Hupd Hde ].

(** A submission leaves the wizard where it is: the form, the consent
    box and the step index are untouched until the reset timer runs. *)
Lemma submit_keeps_wizard (B : Backend) (clk : Clock) (a : App) (r : Remote B) :
  stepIndex (app (submit B clk a r)) = stepIndex a
  /\ form (app (submit B clk a r)) = form a
  /\ consent (app (submit B clk a r)) = consent a.
Proof.
  pose proof (submit_runs B clk a r) as HR.
  run_cases HR; repeat split.
Qed.

(* ------------------------------------------------------------------ *)
(** ** The reference backend *)

Module SurveyStoreFacts.
Import SurveyStore.

(** A failed insert leaves the store as it was and returns no row. *)
Lemma insertRow_failed p row s ins s1 e :
  insertRow p row s = (ins, s1) -> InsertReply.error ins = Some e ->
  s1 = s /\ InsertReply.data ins = None.
Proof.
  unfold insertRow. intros H He.
  destruct (insertFault p); [injection H as <- <-; auto|].
  destruct (hasId (nextId p) s); injection H as <- <-; [auto|discriminate].
Qed.

(** A successful insert appends the row it returns, with the
    payload and the creation time it was given and null photo
    fields. *)
Lemma insertRow_returned p row s ins s1 rec :
  insertRow p row s = (ins, s1) -> InsertReply.data ins = Some rec ->
  s1 = mkStore (surveys s ++ [rec]) (survey_uploads s)
  /\ rec = SurveyRecord.mk (nextId p) (InsertRow.created_at row)
             (InsertRow.data row) None None.
Proof.
  unfold insertRow. intros H Hd.
  destruct (insertFault p); [injection H as <- <-; discriminate|].
  destruct (hasId (nextId p) s); injection H as <- <-; [discriminate|].
  cbn in Hd. injection Hd as <-. auto.
Qed.

(** A failed upload stores nothing. *)
Lemma uploadObject_failed p key f opts s up s1 e :
  uploadObject p key f opts s = (up, s1) -> ErrorReply.error up = Some e ->
  s1 = s.
Proof.
  unfold uploadObject. intros H He.
  destruct (uploadFault p); [injection H as <- <-; auto|].
  destruct (hasKey key s); [destruct (UploadOptions.upsert opts)|];
    injection H as <- <-; auto; discriminate.
Qed.

End SurveyStoreFacts.

(* ------------------------------------------------------------------ *)
(** ** Consent *)

(** C5 as stated does not hold: two component states with the same
    form that differ in the consent flag only make different remote
    calls, none against one insert. *)
Lemma consent_changes_the_calls :
  let B := SurveyStore.backend (SurveyStore.happyPlan "7f3c") in
  let withConsent := initialApp in
  let withoutConsent := setConsent false initialApp in
  form withoutConsent = form withConsent
  /\ trace (submit B sampleClock withoutConsent SurveyStore.empty) = []
  /\ trace (submit B sampleClock withConsent SurveyStore.empty) <> []
  /\ trace (submit B sampleClock withoutConsent SurveyStore.empty)
     <> trace (submit B sampleClock withConsent SurveyStore.empty).
Proof.
  cbv zeta. repeat split; try reflexivity; vm_compute; discriminate.
Qed.

(** C5, amended.  [handleSubmit] checks the consent flag itself.
    Without consent it makes no remote call, leaves the remote state
    as it was and shows "Please confirm consent to submit."; with
    consent it goes on to the insert of the payload built from the
    form. *)
Theorem handleSubmit_checks_consent (B : Backend) (clk : Clock) (a : App)
        (r : Remote B) :
  let w := submit B clk a r in
  if consent a then
    exists ins, hd_error (trace w) = Some (EInsert (insertedRow clk a) ins)
  else
    trace w = []
    /\ remote w = r
    /\ app w = setStatus (Status.mk Error "Please confirm consent to submit.") a.
Proof.
  intros w. subst w.
  pose proof (submit_runs B clk a r) as HR.
  run_cases HR; rewrite Hcons; cbn [trace remote app hd_error]; eauto.
Qed.

(* ------------------------------------------------------------------ *)
(** ** Unresolved public URL *)

Ltac select_event H :=
  cbn [trace In] in H;
  repeat match type of H with
         | _ \/ _ => destruct H as [H | H]
         | False => contradiction
         end;
  try discriminate H.

(** C6.  When the upload succeeded and the URL resolution answered
    without a URL ([data] missing, or [publicUrl] missing), the
    submission goes on: the update is issued for the inserted row's
    id with [photo_path] the uploaded key and [photo_url] null, and
    the outcome is decided by the update's reply alone. *)
Theorem unresolved_url_still_attaches (B : Backend) (clk : Clock) (a : App)
        (r : Remote B) (path : string) (f : File.t) (opts : UploadOptions.t)
        (up : ErrorReply.t) (path' : string) (url : PublicUrlReply.t) :
  let w := submit B clk a r in
  In (EUpload path f opts up) (trace w) ->
  ErrorReply.error up = None ->
  In (EGetPublicUrl path' url) (trace w) ->
  PublicUrlReply.data url = None \/ PublicUrlReply.data url = Some None ->
  exists ins row upd,
    trace w = [EInsert (insertedRow clk a) ins;
               EUpload path f opts up;
               EGetPublicUrl path url;
               EUpdate (PhotoPatch.mk path None) (SurveyRecord.id row) upd]
    /\ InsertReply.data ins = Some row
    /\ path' = path
    /\ path = filePath (SurveyRecord.id row) (now clk) f
    /\ app w = match ErrorReply.error upd with
               | None => succeeded a
               | Some e => failedWith e a
               end.
Proof.
  intros w Hup Hok Hurl Hnone. subst w.
  assert (Hnull : publicUrlOrNull url = None).
  { unfold publicUrlOrNull. destruct Hnone as [-> | ->]; reflexivity. }
  pose proof (submit_runs B clk a r) as HR.
  run_cases HR; select_event Hup; select_event Hurl;
    injection Hup as <- <- <- <-; injection Hurl as <- <-;
    exists ins, row0, upd; subst patch0; rewrite Hnull, Hde; auto.
Qed.

(** C6 on the reference backend: a photo [trip.jpg], nothing refused,
    and a URL resolution that answers without [data]. *)
Lemma unresolved_url_still_attaches_witness :
  let B := SurveyStore.backend urlUnresolved in
  let a := appWithPhoto tripJpg in
  let w := submit B sampleClock a SurveyStore.empty in
  let key := "survey-photos/survey-7f3c-1714557600000.jpg" in
  let opts := UploadOptions.mk "image/jpeg" false in
  In (EUpload key tripJpg opts (ErrorReply.mk None)) (trace w)
  /\ In (EGetPublicUrl key (PublicUrlReply.mk None)) (trace w)
  /\ exists ins row upd,
      trace w = [EInsert (insertedRow sampleClock a) ins;
                 EUpload key tripJpg opts (ErrorReply.mk None);
                 EGetPublicUrl key (PublicUrlReply.mk None);
                 EUpdate (PhotoPatch.mk key None) (SurveyRecord.id row) upd]
      /\ InsertReply.data ins = Some row
      /\ key = key
      /\ key = filePath (SurveyRecord.id row) (now sampleClock) tripJpg
      /\ app w = match ErrorReply.error upd with
                 | None => succeeded a
                 | Some e => failedWith e a
                 end.
Proof.
  cbv zeta.
  assert (H1 : In (EUpload "survey-photos/survey-7f3c-1714557600000.jpg" tripJpg
                     (UploadOptions.mk "image/jpeg" false) (ErrorReply.mk None))
                  (trace (submit (SurveyStore.backend urlUnresolved) sampleClock
                            (appWithPhoto tripJpg) SurveyStore.empty))).
  { vm_compute. right. left. reflexivity. }
  assert (H2 : In (EGetPublicUrl "survey-photos/survey-7f3c-1714557600000.jpg"
                     (PublicUrlReply.mk None))
                  (trace (submit (SurveyStore.backend urlUnresolved) sampleClock
                            (appWithPhoto tripJpg) SurveyStore.empty))).
  { vm_compute. right. right. left. reflexivity. }
  split; [exact H1|]. split; [exact H2|].
  apply (@unresolved_url_still_attaches (SurveyStore.backend urlUnresolved)
           sampleClock (appWithPhoto tripJpg) SurveyStore.empty
           "survey-photos/survey-7f3c-1714557600000.jpg" tripJpg
           (UploadOptions.mk "image/jpeg" false) (ErrorReply.mk None)
           "survey-photos/survey-7f3c-1714557600000.jpg" (PublicUrlReply.mk None)).
  - exact H1.
  - reflexivity.
  - exact H2.
  - left. reflexivity.
Defined.

(* ------------------------------------------------------------------ *)
(** ** Insert, upload and what is left behind *)

Section OnTheReferenceBackend.
Import SurveyStore SurveyStoreFacts.

Variable p : Plan.
Variable clk : Clock.

(** C1 as stated does not hold.  Submitting without consent makes no
    insert at all; and with consent and no photo, a refused insert
    ends in the error state, not in success. *)
Lemma insert_count_and_success_not_unconditional :
  countCalls isInsert
    (trace (submit (backend (happyPlan "7f3c")) sampleClock
              (setConsent false initialApp) empty)) <> 1%nat
  /\ file (photo (form initialApp)) = None
  /\ Status.state
       (status (app (submit (backend insertRefused) sampleClock initialApp empty)))
     <> Success.
Proof.
  repeat split; vm_compute; discriminate.
Qed.

(** C1, amended.  With consent given, a submission calls the insert
    exactly once.  If moreover the form has no photo file, it makes
    no call on the blob store and no update; and if the insert
    returned a row, it ends in success with that row stored with
    null photo fields. *)
Theorem submit_inserts_once (s : Store) (a : App) :
  consent a = true ->
  let w := submit (backend p) clk a s in
  countCalls isInsert (trace w) = 1%nat
  /\ (file (photo (form a)) = None ->
      countCalls isBlobStoreCall (trace w) = 0%nat
      /\ countCalls isUpdate (trace w) = 0%nat
      /\ forall row,
          InsertReply.data (fst (insertRow p (insertedRow clk a) s)) = Some row ->
          app w = succeeded a
          /\ In row (surveys (remote w))
          /\ SurveyRecord.photo_path row = None
          /\ SurveyRecord.photo_url row = None).
Proof.
  intros Hc w. subst w.
  pose proof (submit_runs (backend p) clk a s) as HR.
  run_cases HR; try congruence;
    (split; [reflexivity|]); intros Hnone; try congruence;
    (split; [reflexivity|]); (split; [reflexivity|]);
    intros row Hrow; cbn [insert backend] in Hins; rewrite Hins in Hrow;
    cbn [fst] in Hrow.
  - destruct (insertRow_failed _ _ _ Hins He) as [_ Hnorow]. congruence.
  - congruence.
  - destruct (insertRow_returned _ _ _ Hins Hrow) as [-> ->].
    cbn [app remote surveys SurveyRecord.photo_path SurveyRecord.photo_url].
    repeat split. apply in_or_app. right. left. reflexivity.
Qed.

(** C2.  When the insert of a submission was refused, that insert is
    the only remote call made: nothing is asked of the blob store,
    no update is issued, the store holds what it held before (no
    record was created), and the component ends in the error state
    showing the insert's error. *)
Theorem failed_insert_stops (s : Store) (a : App) (row : InsertRow.t)
        (reply : InsertReply.t) (err : JsError.t) :
  let w := submit (backend p) clk a s in
  In (EInsert row reply) (trace w) ->
  InsertReply.error reply = Some err ->
  trace w = [EInsert (insertedRow clk a) reply]
  /\ countCalls isBlobStoreCall (trace w) = 0%nat
  /\ countCalls isUpdate (trace w) = 0%nat
  /\ remote w = s
  /\ surveys (remote w) = surveys s
  /\ status (app w) = Status.mk Error (messageOr err "Submission failed.")
  /\ timers (app w) = timers a.
Proof.
  intros w Hin Herr. subst w.
  pose proof (submit_runs (backend p) clk a s) as HR.
  run_cases HR; select_event Hin; injection Hin as <- <-; try congruence.
  cbn [insert backend] in Hins.
  destruct (insertRow_failed _ _ _ Hins He) as [-> _].
  assert (e = err) as -> by congruence.
  repeat split.
Qed.

(** C3.  When the upload of a submission was refused, the insert had
    succeeded and its row stays in the store, with null photo
    fields; nothing was stored in the bucket, no update is
    attempted, and the component ends in the error state showing
    the upload's error. *)
Theorem failed_upload_keeps_record (s : Store) (a : App) (path : string)
        (f : File.t) (opts : UploadOptions.t) (up : ErrorReply.t)
        (err : JsError.t) :
  let w := submit (backend p) clk a s in
  In (EUpload path f opts up) (trace w) ->
  ErrorReply.error up = Some err ->
  exists ins row,
    trace w = [EInsert (insertedRow clk a) ins; EUpload path f opts up]
    /\ InsertReply.error ins = None
    /\ InsertReply.data ins = Some row
    /\ surveys (remote w) = (surveys s ++ [row])%list
    /\ SurveyRecord.photo_path row = None
    /\ SurveyRecord.photo_url row = None
    /\ survey_uploads (remote w) = survey_uploads s
    /\ countCalls isUpdate (trace w) = 0%nat
    /\ status (app w) = Status.mk Error (messageOr err "Submission failed.")
    /\ timers (app w) = timers a.
Proof.
  intros w Hin Herr. subst w.
  pose proof (submit_runs (backend p) clk a s) as HR.
  run_cases HR; select_event Hin; injection Hin as <- <- <- <-;
    try congruence.
  cbn [insert upload backend] in Hins, Hup0.
  destruct (insertRow_returned _ _ _ Hins Hd) as [-> Hrow].
  rewrite (uploadObject_failed _ _ _ _ _ Hup0 Hue).
  assert (e = err) as -> by congruence.
  exists ins, row0.
  repeat split; try assumption; rewrite Hrow; reflexivity.
Qed.

End OnTheReferenceBackend.

(** C1 at the initial form (no photo), with consent and a backend
    that refuses nothing. *)
Lemma submit_inserts_once_witness :
  let w := submit (SurveyStore.backend (SurveyStore.happyPlan "7f3c")) sampleClock
             initialApp SurveyStore.empty in
  let row := SurveyRecord.mk "7f3c" (toISOString sampleClock)
               (buildPayload initialForm) None None in
  consent initialApp = true
  /\ file (photo (form initialApp)) = None
  /\ countCalls isInsert (trace w) = 1%nat
  /\ countCalls isBlobStoreCall (trace w) = 0%nat
  /\ countCalls isUpdate (trace w) = 0%nat
  /\ app w = succeeded initialApp
  /\ In row (SurveyStore.surveys (remote w)).
Proof.
  cbv zeta.
  destruct (@submit_inserts_once (SurveyStore.happyPlan "7f3c") sampleClock
              SurveyStore.empty initialApp eq_refl) as [Hone Hrest].
  destruct (Hrest eq_refl) as (Hblob & Hupd & Hrow).
  destruct (Hrow (SurveyRecord.mk "7f3c" (toISOString sampleClock)
                    (buildPayload initialForm) None None) eq_refl)
    as (Happ & Hin & _ & _).
  repeat split; assumption.
Defined.

(** C2 with an insert refused for lack of permission. *)
Lemma failed_insert_stops_witness :
  let w := submit (SurveyStore.backend insertRefused) sampleClock
             (appWithPhoto tripJpg) SurveyStore.empty in
  let reply := InsertReply.mk None
                 (Some (refused "permission denied for table surveys")) in
  trace w = [EInsert (insertedRow sampleClock (appWithPhoto tripJpg)) reply]
  /\ countCalls isBlobStoreCall (trace w) = 0%nat
  /\ countCalls isUpdate (trace w) = 0%nat
  /\ remote w = SurveyStore.empty
  /\ SurveyStore.surveys (remote w) = []
  /\ status (app w) = Status.mk Error "permission denied for table surveys"
  /\ timers (app w) = [].
Proof.
  cbv zeta.
  apply (@failed_insert_stops insertRefused sampleClock SurveyStore.empty
           (appWithPhoto tripJpg)
           (insertedRow sampleClock (appWithPhoto tripJpg))
           (InsertReply.mk None (Some (refused "permission denied for table surveys")))
           (refused "permission denied for table surveys")).
  - left. reflexivity.
  - reflexivity.
Defined.

(** C3 with an upload refused because the bucket is missing. *)
Lemma failed_upload_keeps_record_witness :
  let w := submit (SurveyStore.backend uploadRefused) sampleClock
             (appWithPhoto tripJpg) SurveyStore.empty in
  let key := "survey-photos/survey-7f3c-1714557600000.jpg" in
  let opts := UploadOptions.mk "image/jpeg" false in
  let up := ErrorReply.mk (Some (refused "Bucket not found")) in
  exists ins row,
    trace w = [EInsert (insertedRow sampleClock (appWithPhoto tripJpg)) ins;
               EUpload key tripJpg opts up]
    /\ InsertReply.error ins = None
    /\ InsertReply.data ins = Some row
    /\ SurveyStore.surveys (remote w) = [row]
    /\ SurveyRecord.photo_path row = None
    /\ SurveyRecord.photo_url row = None
    /\ SurveyStore.survey_uploads (remote w) = []
    /\ countCalls isUpdate (trace w) = 0%nat
    /\ status (app w) = Status.mk Error "Bucket not found"
    /\ timers (app w) = [].
Proof.
  cbv zeta.
  apply (@failed_upload_keeps_record uploadRefused sampleClock SurveyStore.empty
           (appWithPhoto tripJpg)
           "survey-photos/survey-7f3c-1714557600000.jpg" tripJpg
           (UploadOptions.mk "image/jpeg" false)
           (ErrorReply.mk (Some (refused "Bucket not found")))
           (refused "Bucket not found")).
  - right. left. reflexivity.
  - reflexivity.
Defined.

(* ------------------------------------------------------------------ *)
(** ** The storage key *)

(** For a file whose name has an extension, the key has the specified
    form. *)
Lemma filePath_with_extension (surveyId : string) (now : Z) (f : File.t)
      (ext : string) :
  originalExtension (File.name f) = Some ext ->
  filePath surveyId now f = specifiedKey surveyId now ext.
Proof.
  intros H. unfold filePath, fileName, fileExt, specifiedKey.
  rewrite pop_split_dot, H. reflexivity.
Qed.

(** For a file whose name has no ['.'], the whole name takes the
    extension's place. *)
Lemma filePath_without_extension (surveyId : string) (now : Z) (f : File.t) :
  originalExtension (File.name f) = None ->
  filePath surveyId now f = specifiedKey surveyId now (File.name f).
Proof.
  intros H. unfold filePath, fileName, fileExt, specifiedKey.
  rewrite pop_split_dot, H. reflexivity.
Qed.

(** The key depends on the record id, the clock reading and the
    file's name only. *)
Lemma filePath_deterministic (surveyId : string) (now : Z) (f g : File.t) :
  File.name f = File.name g -> filePath surveyId now f = filePath surveyId now g.
Proof.
  intros H. unfold filePath, fileName, fileExt. rewrite H. reflexivity.
Qed.

(** C4 fails on the code for a photo named [photo]: the file is
    accepted by [handleFileChange], it has no extension, and yet the
    upload goes to a key ending in [.photo], the whole name standing
    where the extension belongs; the specified key for a file without
    extension would end in the bare ['.']. *)
Lemma storage_key_of_dotless_name :
  let a := appWithPhoto dotlessPhoto in
  let w := submit (SurveyStore.backend (SurveyStore.happyPlan "7f3c")) sampleClock
             a SurveyStore.empty in
  file (photo (form a)) = Some dotlessPhoto
  /\ originalExtension (File.name dotlessPhoto) = None
  /\ fileExt dotlessPhoto = Some "photo"
  /\ filePath "7f3c" (now sampleClock) dotlessPhoto
     = "survey-photos/survey-7f3c-1714557600000.photo"
  /\ In (EUpload "survey-photos/survey-7f3c-1714557600000.photo" dotlessPhoto
           (UploadOptions.mk "image/jpeg" false) (ErrorReply.mk None))
        (trace w)
  /\ filePath "7f3c" (now sampleClock) dotlessPhoto
     <> specifiedKey "7f3c" (now sampleClock) "".
Proof.
  cbv zeta. repeat split; try reflexivity.
  - vm_compute. right. left. reflexivity.
  - vm_compute. discriminate.
Qed.

(* ================================================================== *)
(** * Further properties of the component *)

(* ------------------------------------------------------------------ *)
(** ** Validation, exactly *)

Lemma trimEnd_keeps_head (c : ascii) (r : string) :
  isWhiteSpace c = false -> trimEnd (String c r) <> "".
Proof.
  intros Hc. cbn [trimEnd]. destruct (trimEnd r); [rewrite Hc|]; discriminate.
Qed.

Lemma trim_not_blank (s : string) : isBlank s = false -> trim s <> "".
Proof.
  unfold trim. induction s as [|c r IH]; cbn [isBlank trimStart]; [discriminate|].
  destruct (isWhiteSpace c) eqn:Hc; cbn [andb].
  - exact IH.
  - intros _. exact (@trimEnd_keeps_head c r Hc).
Qed.

(** The trimmed text is truthy exactly when the text is not blank. *)
Lemma truthy_trim (s : string) : truthy (VStr (trim s)) = negb (isBlank s).
Proof.
  destruct (isBlank s) eqn:Hb.
  - rewrite (trim_blank _ Hb). reflexivity.
  - pose proof (trim_not_blank _ Hb) as Hn.
    destruct (trim s); [contradiction|reflexivity].
Qed.

Lemma truthy_and (x y : JsVal) : truthy (and_ x y) = truthy x && truthy y.
Proof. unfold and_. destruct (truthy x) eqn:Hx; [reflexivity|exact Hx]. Qed.

Lemma truthy_or (x y : JsVal) : truthy (or_ x y) = truthy x || truthy y.
Proof. unfold or_. destruct (truthy x) eqn:Hx; [exact Hx|reflexivity]. Qed.

Lemma truthy_groupOk (selected : list string) (otherText : string) :
  truthy (groupOk selected otherText) = groupComplete selected otherText.
Proof.
  unfold groupOk. rewrite truthy_and, truthy_or, truthy_trim.
  destruct selected; reflexivity.
Qed.

Lemma truthy_validate_profiling (f : FormState) :
  truthy (validateStep "profiling" f)
  = groupComplete (products (profiling f)) (productsOther (profiling f))
    && groupComplete (audience (profiling f)) (audienceOther (profiling f)).
Proof.
  rewrite validate_profiling_groups, truthy_and, !truthy_groupOk. reflexivity.
Qed.


(** Validation looks at the step's id and the profiling part of the
    form only: every step other than [profiling] validates whatever
    the form holds. *)
Theorem validateStep_other_steps (stepId : string) (f : FormState) :
  String.eqb stepId "profiling" = false ->
  validateStep stepId f = VBool true.
Proof.
  intros H. unfold validateStep. rewrite H.
  destruct (String.eqb stepId "pain"); [reflexivity|].
  destruct (String.eqb stepId "photo"); reflexivity.
Qed.

Lemma validateStep_other_steps_witness :
  validateStep "review" initialForm = VBool true.
Proof.
  apply validateStep_other_steps. reflexivity.
Defined.

(* ------------------------------------------------------------------ *)
(** ** Moving through the wizard *)

(** On the pain-points and photo steps Continue always advances by
    one, whatever the form holds, and Back then returns to the step
    it came from; the form is not touched. *)
Theorem middle_steps_always_advance (a : App) :
  stepIndex a = 1 \/ stepIndex a = 2 ->
  exists a',
    nextStep a = Some a'
    /\ stepIndex a' = stepIndex a + 1
    /\ form a' = form a
    /\ status a' = Status.mk Idle ""
    /\ stepIndex (prevStep a') = stepIndex a.
Proof.
  intros H. unfold nextStep, canProceed, step.
  destruct H as [H | H]; rewrite H; cbn;
    (eexists; split; [reflexivity|]);
    unfold prevStep; cbn [setStepIndex setStatus stepIndex form status];
    rewrite H; repeat split.
Qed.

Lemma middle_steps_always_advance_witness :
  exists a',
    nextStep (setStepIndex (fun _ => 1) initialApp) = Some a'
    /\ stepIndex a' = stepIndex (setStepIndex (fun _ => 1) initialApp) + 1
    /\ form a' = form (setStepIndex (fun _ => 1) initialApp)
    /\ status a' = Status.mk Idle ""
    /\ stepIndex (prevStep a') = stepIndex (setStepIndex (fun _ => 1) initialApp).
Proof.
  apply middle_steps_always_advance. left. reflexivity.
Defined.



(** Continue on the last step and Back on the first leave the step
    index where it is (instances of [nextStep_clamps] and
    [prevStep_clamps]). *)
Lemma nextStep_clamps_witness :
  exists a',
    nextStep (setStepIndex (fun _ => 3) initialApp) = Some a'
    /\ stepIndex a' = STEPS_length - 1.
Proof.
  apply nextStep_clamps. reflexivity.
Defined.

Lemma prevStep_clamps_witness : stepIndex (prevStep initialApp) = 0.
Proof.
  apply prevStep_clamps. reflexivity.
Defined.

(** The footer offers a button exactly when it has an effect: Back is
    disabled exactly when [prevStep] would stay, and Continue is
    rendered exactly below the last step. *)
Theorem footer_buttons_match_handlers (a : App) :
  0 <= stepIndex a <= STEPS_length - 1 ->
  backDisabled a = (stepIndex (prevStep a) =? stepIndex a)
  /\ continueShown a = Some (stepIndex a <? STEPS_length - 1).
Proof.
  rewrite STEPS_length_4. intros H.
  assert (Hc : stepIndex a = 0 \/ stepIndex a = 1 \/ stepIndex a = 2 \/ stepIndex a = 3)
    by lia.
  unfold backDisabled, continueShown, step, prevStep.
  cbn [setStepIndex setStatus stepIndex].
  destruct Hc as [H0 | [H0 | [H0 | H0]]]; rewrite H0; split; reflexivity.
Qed.

Lemma footer_buttons_match_handlers_witness :
  backDisabled initialApp = (stepIndex (prevStep initialApp) =? stepIndex initialApp)
  /\ continueShown initialApp = Some (stepIndex initialApp <? STEPS_length - 1).
Proof.
  apply footer_buttons_match_handlers. cbn. lia.
Defined.

(* ------------------------------------------------------------------ *)
(** ** Ticking and unticking options *)

Lemma includes_app (l1 l2 : list string) (x : string) :
  includes (l1 ++ l2) x = includes l1 x || includes l2 x.
Proof. unfold includes. apply existsb_app. Qed.

Lemma includes_filter_out (l : list string) (x : string) :
  includes (filter (fun item => negb (String.eqb item x)) l) x = false.
Proof.
  unfold includes. induction l as [|y l IH]; cbn [filter existsb]; [reflexivity|].
  destruct (String.eqb y x) eqn:Hy; cbn [negb]; [exact IH|].
  cbn [existsb]. rewrite String.eqb_sym, Hy. exact IH.
Qed.

Lemma filter_out_absent (l : list string) (x : string) :
  includes l x = false ->
  filter (fun item => negb (String.eqb item x)) l = l.
Proof.
  unfold includes. induction l as [|y l IH]; cbn [filter existsb]; [reflexivity|].
  intros H. apply orb_false_elim in H. destruct H as [Hy Hl].
  rewrite String.eqb_sym, Hy. cbn [negb]. rewrite (IH Hl). reflexivity.
Qed.

(** After ticking an option it is selected; after unticking it, it is
    not selected any more, however often it occurred. *)
Theorem toggled_membership (option : string) (current : list string) :
  includes (toggled true option current) option = true
  /\ includes (toggled false option current) option = false.
Proof.
  split; cbn [toggled].
  - rewrite includes_app. unfold includes at 2. cbn [existsb].
    rewrite String.eqb_refl. apply orb_true_iff. right. reflexivity.
  - apply includes_filter_out.
Qed.

(** Ticking an option that was not selected and unticking it again
    gives back the selection as it was, order included. *)
Theorem untick_undoes_tick (option : string) (current : list string) :
  includes current option = false ->
  toggled false option (toggled true option current) = current.
Proof.
  intros H. cbn [toggled]. rewrite filter_app. cbn [filter].
  rewrite String.eqb_refl. cbn [negb].
  rewrite (filter_out_absent _ _ H). apply app_nil_r.
Qed.

Lemma untick_undoes_tick_witness :
  toggled false "Other" (toggled true "Other" ["Tours & Experiences"])
  = ["Tours & Experiences"].
Proof.
  apply untick_undoes_tick. reflexivity.
Defined.

(** Unticking the only selected product on the profiling step blocks
    Continue: the step index stays 0 and the error banner shows. *)
Theorem unticking_last_product_blocks (option : string) (a : App) :
  stepIndex a = 0 ->
  products (profiling (form a)) = [option] ->
  let a' := toggleProduct false option a in
  products (profiling (form a')) = []
  /\ nextStep a'
     = Some (setStatus (Status.mk Error "Please complete this step to continue.") a').
Proof.
  intros Hi Hp a'. subst a'.
  assert (He : products (profiling (form (toggleProduct false option a))) = []).
  { unfold toggleProduct. cbn [updateProfiling setForm form profiling products].
    rewrite Hp. cbn [toggled filter]. rewrite String.eqb_refl. reflexivity. }
  split; [exact He|].
  unfold nextStep, canProceed, step.
  replace (stepIndex (toggleProduct false option a)) with 0 by (symmetry; exact Hi).
  rewrite STEPS_at_0. cbn [Step.id].
  rewrite truthy_validate_profiling, He. reflexivity.
Qed.

Lemma unticking_last_product_blocks_witness :
  let a' := toggleProduct false "Tours & Experiences" initialApp in
  products (profiling (form a')) = []
  /\ nextStep a'
     = Some (setStatus (Status.mk Error "Please complete this step to continue.") a').
Proof.
  apply unticking_last_product_blocks; reflexivity.
Defined.

(* ------------------------------------------------------------------ *)
(** ** Pain points *)

(** An [updatePainPoints] call changes the wire payload in the group
    it names and nowhere else; it never affects the profiling part,
    the photo or the validation of any step. *)
Theorem updatePainPoints_touches_one_group (fv : PainField) (a : App) :
  let before := buildPayload (form a) in
  let after := buildPayload (form (updatePainPoints fv a)) in
  Payload.profiling after = Payload.profiling before
  /\ photo (form (updatePainPoints fv a)) = photo (form a)
  /\ (forall stepId, validateStep stepId (form (updatePainPoints fv a))
                     = validateStep stepId (form a))
  /\ match groupOf fv with
     | GCustomerEnd =>
         WirePainPoints.internal_ops (Payload.pain_points after)
         = WirePainPoints.internal_ops (Payload.pain_points before)
         /\ WirePainPoints.supplier_end (Payload.pain_points after)
            = WirePainPoints.supplier_end (Payload.pain_points before)
     | GInternalOps =>
         WirePainPoints.customer_end (Payload.pain_points after)
         = WirePainPoints.customer_end (Payload.pain_points before)
         /\ WirePainPoints.supplier_end (Payload.pain_points after)
            = WirePainPoints.supplier_end (Payload.pain_points before)
     | GSupplierEnd =>
         WirePainPoints.customer_end (Payload.pain_points after)
         = WirePainPoints.customer_end (Payload.pain_points before)
         /\ WirePainPoints.internal_ops (Payload.pain_points after)
            = WirePainPoints.internal_ops (Payload.pain_points before)
     end.
Proof.
  destruct fv; cbn; repeat split.
Qed.

(* ------------------------------------------------------------------ *)
(** ** The photo step *)

Lemma handleFileChange_keeps_image (picked : option File.t) (objectUrl : string)
      (a : App) :
  storedPhotoIsImage a = true ->
  storedPhotoIsImage (handleFileChange picked objectUrl a) = true.
Proof.
  intros H. unfold handleFileChange. destruct picked as [f|]; [|exact H].
  destruct (startsWith (File.type f) "image/") eqn:Hf; cbn [negb].
  - unfold storedPhotoIsImage. cbn [setForm form photo file]. exact Hf.
  - exact H.
Qed.

Lemma handleRetake_no_photo (a : App) :
  photo (form (handleRetake a)) = mkPhoto None "".
Proof.
  unfold handleRetake. destruct (previewUrl (photo (form a))); reflexivity.
Qed.

Lemma runPhotoActions_keeps_image (xs : list PhotoAction) :
  forall a, storedPhotoIsImage a = true ->
            storedPhotoIsImage (runPhotoActions xs a) = true.
Proof.
  induction xs as [|x rest IH]; intros a H; cbn [runPhotoActions]; [exact H|].
  apply IH. destruct x as [picked objectUrl|]; cbn [photoAct].
  - apply handleFileChange_keeps_image. exact H.
  - unfold storedPhotoIsImage. rewrite handleRetake_no_photo. reflexivity.
Qed.

(** Whatever files the user picks and however often the photo is
    retaken, the form never holds a file whose MIME type does not
    start with [image/]; a rejected pick leaves the previous photo in
    place. *)
Theorem stored_photo_is_always_image (xs : list PhotoAction) :
  storedPhotoIsImage (runPhotoActions xs initialApp) = true.
Proof.
  apply runPhotoActions_keeps_image. reflexivity.
Qed.

(** A pick that is rejected (no file, or not an image) leaves the
    form, and so the photo chosen before, exactly as it was. *)
Theorem rejected_pick_keeps_form (picked : option File.t) (objectUrl : string)
        (a : App) :
  match picked with
  | Some f => startsWith (File.type f) "image/" = false
  | None => True
  end ->
  form (handleFileChange picked objectUrl a) = form a
  /\ revoked (handleFileChange picked objectUrl a) = revoked a.
Proof.
  unfold handleFileChange. destruct picked as [f|]; [|split; reflexivity].
  intros ->. split; reflexivity.
Qed.

Lemma rejected_pick_keeps_form_witness :
  let pdf := File.mk "notes.pdf" "application/pdf" [] in
  form (handleFileChange (Some pdf) "blob:pdf" (appWithPhoto tripJpg))
  = form (appWithPhoto tripJpg)
  /\ revoked (handleFileChange (Some pdf) "blob:pdf" (appWithPhoto tripJpg))
     = revoked (appWithPhoto tripJpg).
Proof.
  apply (@rejected_pick_keeps_form
           (Some (File.mk "notes.pdf" "application/pdf" [])) "blob:pdf"
           (appWithPhoto tripJpg)).
  reflexivity.
Defined.

(** Retake releases the preview of the photo it discards and only
    that one: when a photo replaced an earlier one, the earlier
    preview URL is released neither by the replacement nor by the
    retake. *)
Theorem retake_releases_current_preview_only (f1 f2 : File.t) (u1 u2 : string)
        (a : App) :
  startsWith (File.type f1) "image/" = true ->
  startsWith (File.type f2) "image/" = true ->
  u2 <> "" ->
  let replaced := handleFileChange (Some f2) u2 (handleFileChange (Some f1) u1 a) in
  photo (form replaced) = mkPhoto (Some f2) u2
  /\ revoked replaced = revoked a
  /\ photo (form (handleRetake replaced)) = mkPhoto None ""
  /\ revoked (handleRetake replaced) = (revoked a ++ [u2])%list.
Proof.
  intros H1 H2 Hu replaced. subst replaced.
  unfold handleFileChange. rewrite H1, H2. cbn [negb].
  split; [reflexivity|]. split; [reflexivity|].
  split; [apply handleRetake_no_photo|].
  unfold handleRetake. cbn [setForm form photo previewUrl].
  destruct u2; [contradiction|reflexivity].
Qed.

Lemma retake_releases_current_preview_only_witness :
  let replaced := handleFileChange (Some tripJpg) "blob:second"
                    (handleFileChange (Some dotlessPhoto) "blob:first" initialApp) in
  photo (form replaced) = mkPhoto (Some tripJpg) "blob:second"
  /\ revoked replaced = revoked initialApp
  /\ photo (form (handleRetake replaced)) = mkPhoto None ""
  /\ revoked (handleRetake replaced) = (revoked initialApp ++ ["blob:second"])%list.
Proof.
  apply (@retake_releases_current_preview_only dotlessPhoto tripJpg
           "blob:first" "blob:second" initialApp).
  - reflexivity.
  - reflexivity.
  - discriminate.
Defined.

(* ------------------------------------------------------------------ *)
(** ** The order of the remote calls *)

Ltac first_four i :=
  destruct i as [|[|[|[|i]]]]; cbn [nth_error] in *;
  try discriminate; try (destruct i; discriminate).

(** The remote calls of a submission come in the order insert,
    upload, getPublicUrl, update, each at most once: the call at
    position [i] of the trace is the [i]-th of that sequence. *)
Theorem calls_follow_the_sequence (B : Backend) (clk : Clock) (a : App)
        (r : Remote B) (i : nat) (ev : Event) :
  nth_error (trace (submit B clk a r)) i = Some ev ->
  callRank ev = i /\ (i < 4)%nat.
Proof.
  intros H.
  pose proof (submit_runs B clk a r) as HR.
  run_cases HR; cbn [trace] in H; first_four i;
    injection H as <-; split; (reflexivity || lia).
Qed.

Lemma calls_follow_the_sequence_witness :
  callRank (EGetPublicUrl "survey-photos/survey-7f3c-1714557600000.jpg"
              (PublicUrlReply.mk None)) = 2%nat
  /\ (2 < 4)%nat.
Proof.
  apply (@calls_follow_the_sequence (SurveyStore.backend urlUnresolved) sampleClock
           (appWithPhoto tripJpg) SurveyStore.empty 2).
  reflexivity.
Defined.



Lemma prefix_append (p s : string) : String.prefix p (p ++ s) = true.
Proof.
  induction p as [|c p IH]; cbn [append prefix].
  - destruct s; reflexivity.
  - destruct (ascii_dec c c) as [_|Hn]; [exact IH|contradiction].
Qed.

Lemma filePath_prefix (surveyId : string) (now : Z) (f : File.t) :
  startsWith (filePath surveyId now f) "survey-photos/survey-" = true.
Proof.
  unfold startsWith.
  change (filePath surveyId now f)
    with ("survey-photos/survey-"
            ++ (surveyId ++ "-" ++ ofNumber now ++ "." ++ ofMaybe (fileExt f))).
  apply prefix_append.
Qed.

(** Every upload a submission asks for is the form's own photo, sent
    with the file's MIME type as content type, never overwriting
    ([upsert] is false), to a key under [survey-photos/survey-]. *)
Theorem uploads_never_overwrite (B : Backend) (clk : Clock) (a : App)
        (r : Remote B) (path : string) (f : File.t) (opts : UploadOptions.t)
        (up : ErrorReply.t) :
  In (EUpload path f opts up) (trace (submit B clk a r)) ->
  UploadOptions.upsert opts = false
  /\ UploadOptions.contentType opts = File.type f
  /\ file (photo (form a)) = Some f
  /\ startsWith path "survey-photos/survey-" = true.
Proof.
  intros H.
  pose proof (submit_runs B clk a r) as HR.
  run_cases HR; select_event H; injection H as <- <- <- <-;
    repeat split; try assumption; apply filePath_prefix.
Qed.

Lemma uploads_never_overwrite_witness :
  UploadOptions.upsert (UploadOptions.mk "image/jpeg" false) = false
  /\ UploadOptions.contentType (UploadOptions.mk "image/jpeg" false)
     = File.type tripJpg
  /\ file (photo (form (appWithPhoto tripJpg))) = Some tripJpg
  /\ startsWith "survey-photos/survey-7f3c-1714557600000.jpg"
       "survey-photos/survey-" = true.
Proof.
  apply (@uploads_never_overwrite (SurveyStore.backend urlUnresolved) sampleClock
           (appWithPhoto tripJpg) SurveyStore.empty
           "survey-photos/survey-7f3c-1714557600000.jpg" tripJpg
           (UploadOptions.mk "image/jpeg" false) (ErrorReply.mk None)).
  right. left. reflexivity.
Defined.

(** After any picks and retakes from the initial state, whatever a
    submission uploads is declared with an [image/] content type. *)
Theorem only_images_are_uploaded (xs : list PhotoAction) (B : Backend)
        (clk : Clock) (r : Remote B) (path : string) (f : File.t)
        (opts : UploadOptions.t) (up : ErrorReply.t) :
  In (EUpload path f opts up)
     (trace (submit B clk (runPhotoActions xs initialApp) r)) ->
  startsWith (UploadOptions.contentType opts) "image/" = true.
Proof.
  intros H.
  pose proof (runPhotoActions_keeps_image xs initialApp eq_refl) as Himg.
  pose proof (submit_runs B clk (runPhotoActions xs initialApp) r) as HR.
  unfold storedPhotoIsImage in Himg.
  run_cases HR; select_event H; injection H as <- <- <- <-;
    rewrite Hf in Himg; exact Himg.
Qed.

Lemma only_images_are_uploaded_witness :
  startsWith (UploadOptions.contentType (UploadOptions.mk "image/jpeg" false))
    "image/" = true.
Proof.
  apply (@only_images_are_uploaded [Pick (Some tripJpg) "blob:preview"]
           (SurveyStore.backend urlUnresolved) sampleClock SurveyStore.empty
           "survey-photos/survey-7f3c-1714557600000.jpg" tripJpg
           (UploadOptions.mk "image/jpeg" false) (ErrorReply.mk None)).
  right. left. reflexivity.
Defined.

(* ------------------------------------------------------------------ *)
(** ** How a submission ends *)

(** A submission never leaves the component loading or idle: it ends
    in success, with the overlay shown and the reset timer of 1800 ms
    scheduled, or in error, with the overlay and the timers as they
    were.  Either way the Submit button is enabled again and the
    form, the consent box and the step are as before. *)
Theorem submission_ends_in_success_or_error (B : Backend) (clk : Clock)
        (a : App) (r : Remote B) :
  let a' := app (submit B clk a r) in
  submitDisabled a' = false
  /\ form a' = form a /\ consent a' = consent a /\ stepIndex a' = stepIndex a
  /\ match Status.state (status a') with
     | Success =>
         showSuccess a' = true
         /\ timers a'
            = (timers a ++ [Timer.mk 1800 (previewUrl (photo (form a)))])%list
         /\ consent a = true
     | Error => showSuccess a' = showSuccess a /\ timers a' = timers a
     | Idle | Loading => False
     end.
Proof.
  intros a'. subst a'.
  pose proof (submit_runs B clk a r) as HR.
  run_cases HR; cbn; repeat split; assumption.
Qed.

(** Once the reset timer of a successful submission has run, the
    wizard is back at its start: initial form, first step, consent
    ticked, idle status, no overlay; the preview URL the submission
    saw is released if there was one; and Continue works again. *)
Theorem reset_after_success (B : Backend) (clk : Clock) (a : App) (r : Remote B) :
  Status.state (status (app (submit B clk a r))) = Success ->
  exists t,
    timers (app (submit B clk a r)) = (timers a ++ [t])%list
    /\ Timer.delay t = 1800
    /\ let a' := runTimer t (app (submit B clk a r)) in
       form a' = initialForm
       /\ stepIndex a' = 0
       /\ consent a' = true
       /\ status a' = Status.mk Idle ""
       /\ showSuccess a' = false
       /\ revoked a'
          = (revoked a ++ match previewUrl (photo (form a)) with
                          | EmptyString => []
                          | url => [url]
                          end)%list
       /\ option_map stepIndex (nextStep a') = Some 1.
Proof.
  intros H.
  pose proof (submit_runs B clk a r) as HR.
  run_cases HR; cbn in H; try discriminate H;
    (eexists; split; [reflexivity|]; split; [reflexivity|]);
    cbn [Timer.capturedPreviewUrl app succeeded];
    destruct (previewUrl (photo (form a))); cbn;
    rewrite ?app_nil_r; repeat split.
Qed.

Lemma reset_after_success_witness :
  let w := submit (SurveyStore.backend (SurveyStore.happyPlan "7f3c")) sampleClock
             (appWithPhoto tripJpg) SurveyStore.empty in
  exists t,
    timers (app w) = (timers (appWithPhoto tripJpg) ++ [t])%list
    /\ Timer.delay t = 1800
    /\ let a' := runTimer t (app w) in
       form a' = initialForm
       /\ stepIndex a' = 0
       /\ consent a' = true
       /\ status a' = Status.mk Idle ""
       /\ showSuccess a' = false
       /\ revoked a'
          = (revoked (appWithPhoto tripJpg)
               ++ match previewUrl (photo (form (appWithPhoto tripJpg))) with
                  | EmptyString => []
                  | url => [url]
                  end)%list
       /\ option_map stepIndex (nextStep a') = Some 1.
Proof.
  apply (@reset_after_success (SurveyStore.backend (SurveyStore.happyPlan "7f3c"))
           sampleClock (appWithPhoto tripJpg) SurveyStore.empty).
  reflexivity.
Defined.

(* ------------------------------------------------------------------ *)
(** ** What a submission does to the reference backend *)

Section StoreEffects.
Import SurveyStore SurveyStoreFacts SurveyStoreInv.

Variable p : Plan.
Variable clk : Clock.

Lemma insertRow_fresh row s ins s1 rec :
  insertRow p row s = (ins, s1) -> InsertReply.data ins = Some rec ->
  hasId (nextId p) s = false /\ rec = freshRow p row.
Proof.
  unfold insertRow. intros H Hd.
  destruct (insertFault p); [injection H as <- <-; discriminate|].
  destruct (hasId (nextId p) s); injection H as <- <-; [discriminate|].
  cbn in Hd. injection Hd as <-. split; reflexivity.
Qed.

Lemma insertRow_row_or_error row s ins s1 :
  insertRow p row s = (ins, s1) -> InsertReply.error ins = None ->
  InsertReply.data ins <> None.
Proof.
  unfold insertRow. intros H He.
  destruct (insertFault p); [injection H as <- <-; discriminate|].
  destruct (hasId (nextId p) s); injection H as <- <-; discriminate.
Qed.

Lemma uploadObject_stored key f opts s up s1 :
  uploadObject p key f opts s = (up, s1) ->
  UploadOptions.upsert opts = false -> ErrorReply.error up = None ->
  hasKey key s = false
  /\ s1 = mkStore (surveys s) (survey_uploads s ++ [(key, f)]).
Proof.
  unfold uploadObject. intros H Hu He. rewrite Hu in H.
  destruct (uploadFault p); [injection H as <- <-; discriminate|].
  destruct (hasKey key s); injection H as <- <-; [discriminate|].
  split; reflexivity.
Qed.

Lemma updateRow_failed patch id s upd s1 e :
  updateRow p patch id s = (upd, s1) -> ErrorReply.error upd = Some e -> s1 = s.
Proof.
  unfold updateRow. intros H He.
  destruct (updateFault p); injection H as <- <-; [reflexivity|discriminate].
Qed.

Lemma patch_skips_other_ids (rows : list SurveyRecord.t) (id : string)
      (g : SurveyRecord.t -> SurveyRecord.t) :
  existsb (fun r => String.eqb (SurveyRecord.id r) id) rows = false ->
  map (fun r => if String.eqb (SurveyRecord.id r) id then g r else r) rows = rows.
Proof.
  induction rows as [|r rows IH]; cbn [existsb map]; [reflexivity|].
  intros H. apply orb_false_elim in H. destruct H as [Hr Hrows].
  rewrite Hr, (IH Hrows). reflexivity.
Qed.

Lemma updateRow_links row patch rows objs upd s1 :
  existsb (fun r => String.eqb (SurveyRecord.id r) (nextId p)) rows = false ->
  updateRow p patch (nextId p) (mkStore (rows ++ [freshRow p row]) objs) = (upd, s1) ->
  ErrorReply.error upd = None ->
  s1 = mkStore (rows ++ [linkedRow p row patch]) objs.
Proof.
  unfold updateRow. intros Hfresh H He.
  destruct (updateFault p); injection H as <- <-; [discriminate|].
  cbn [surveys survey_uploads]. rewrite map_app, (patch_skips_other_ids _ _ _ Hfresh).
  cbn [map freshRow SurveyRecord.id]. rewrite String.eqb_refl. reflexivity.
Qed.

(** The store a submission leaves behind is one of four: the store
    as it was; with the fresh row; with the fresh row and the photo;
    with the linked row and the photo. *)
Lemma submit_store_effect (s : Store) (a : App) :
  let w := submit (backend p) clk a s in
  let row := insertedRow clk a in
  remote w = s
  \/ (hasId (nextId p) s = false
      /\ (remote w = mkStore (surveys s ++ [freshRow p row]) (survey_uploads s)
          \/ exists f url,
              file (photo (form a)) = Some f
              /\ hasKey (filePath (nextId p) (now clk) f) s = false
              /\ (remote w
                  = mkStore (surveys s ++ [freshRow p row])
                      (survey_uploads s ++ [(filePath (nextId p) (now clk) f, f)])
                  \/ remote w
                     = mkStore
                         (surveys s
                            ++ [linkedRow p row
                                  (PhotoPatch.mk (filePath (nextId p) (now clk) f) url)])
                         (survey_uploads s
                            ++ [(filePath (nextId p) (now clk) f, f)])))).
Proof.
  intros w row. subst w row.
  pose proof (submit_runs (backend p) clk a s) as HR.
  run_cases HR; cbn [remote]; cbn [insert upload update getPublicUrl backend] in *.
  - left. reflexivity.
  - left. exact (proj1 (insertRow_failed _ _ _ Hins He)).
  - exfalso. exact (insertRow_row_or_error _ _ Hins He Hd).
  - destruct (insertRow_fresh _ _ Hins Hd) as [Hfresh ->].
    destruct (insertRow_returned _ _ _ Hins Hd) as [-> _].
    right. split; [exact Hfresh|]. left. reflexivity.
  - destruct (insertRow_fresh _ _ Hins Hd) as [Hfresh ->].
    destruct (insertRow_returned _ _ _ Hins Hd) as [-> _].
    rewrite (uploadObject_failed _ _ _ _ _ Hup0 Hue).
    right. split; [exact Hfresh|]. left. reflexivity.
  - destruct (insertRow_fresh _ _ Hins Hd) as [Hfresh ->].
    destruct (insertRow_returned _ _ _ Hins Hd) as [-> _].
    destruct (uploadObject_stored _ _ _ _ Hup0 eq_refl Hue) as [Hkey ->].
    rewrite (updateRow_failed _ _ _ Hupd Hde).
    right. split; [exact Hfresh|]. right.
    exists f0, None. split; [exact Hf|]. split; [exact Hkey|]. left. reflexivity.
  - destruct (insertRow_fresh _ _ Hins Hd) as [Hfresh ->].
    destruct (insertRow_returned _ _ _ Hins Hd) as [-> _].
    destruct (uploadObject_stored _ _ _ _ Hup0 eq_refl Hue) as [Hkey ->].
    cbn [surveys survey_uploads freshRow SurveyRecord.id] in *.
    rewrite (updateRow_links _ _ _ _ Hfresh Hupd Hde).
    right. split; [exact Hfresh|]. right.
    eexists f0, _. split; [exact Hf|]. split; [exact Hkey|]. right. reflexivity.
Qed.

(** When the final update is refused, the photo is in the bucket
    under the key the update named, but the record, still the last
    row of the table, has null photo fields; nothing else changed and
    the component shows the update's error. *)
Theorem failed_attach_leaves_unlinked_object (s : Store) (a : App)
        (patch : PhotoPatch.t) (id : string) (reply : ErrorReply.t)
        (err : JsError.t) :
  let w := submit (backend p) clk a s in
  In (EUpdate patch id reply) (trace w) ->
  ErrorReply.error reply = Some err ->
  exists f,
    file (photo (form a)) = Some f
    /\ id = nextId p
    /\ surveys (remote w) = (surveys s ++ [freshRow p (insertedRow clk a)])%list
    /\ survey_uploads (remote w)
       = (survey_uploads s ++ [(PhotoPatch.photo_path patch, f)])%list
    /\ hasKey (PhotoPatch.photo_path patch) s = false
    /\ status (app w) = Status.mk Error (messageOr err "Submission failed.")
    /\ timers (app w) = timers a.
Proof.
  intros w Hin Herr. subst w.
  pose proof (submit_runs (backend p) clk a s) as HR.
  run_cases HR; select_event Hin; injection Hin as <- <- <-; try congruence.
  cbn [insert upload update getPublicUrl backend] in *.
  destruct (insertRow_fresh _ _ Hins Hd) as [Hfresh ->].
  destruct (insertRow_returned _ _ _ Hins Hd) as [-> _].
  destruct (uploadObject_stored _ _ _ _ Hup0 eq_refl Hue) as [Hkey ->].
  rewrite (updateRow_failed _ _ _ Hupd Hde).
  assert (e = err) as -> by congruence.
  exists f0. repeat split; assumption.
Qed.

(** When every call of a submission with a photo succeeds, the table
    gains exactly the new record, carrying the payload, the uploaded
    key and the URL the resolution returned (null if none), the
    bucket gains the photo under that key, which was free before, and
    the component ends in success. *)
Theorem photo_submission_links_record (s : Store) (a : App)
        (patch : PhotoPatch.t) (id : string) (reply : ErrorReply.t) :
  let w := submit (backend p) clk a s in
  In (EUpdate patch id reply) (trace w) ->
  ErrorReply.error reply = None ->
  exists f,
    file (photo (form a)) = Some f
    /\ id = nextId p
    /\ patch = PhotoPatch.mk (filePath (nextId p) (now clk) f)
                 (publicUrlOrNull (publicUrlFor p (filePath (nextId p) (now clk) f)))
    /\ surveys (remote w)
       = (surveys s ++ [linkedRow p (insertedRow clk a) patch])%list
    /\ survey_uploads (remote w)
       = (survey_uploads s ++ [(PhotoPatch.photo_path patch, f)])%list
    /\ hasKey (PhotoPatch.photo_path patch) s = false
    /\ app w = succeeded a.
Proof.
  intros w Hin Herr. subst w.
  pose proof (submit_runs (backend p) clk a s) as HR.
  run_cases HR; select_event Hin; injection Hin as <- <- <-; try congruence.
  cbn [insert upload update getPublicUrl backend] in *.
  destruct (insertRow_fresh _ _ Hins Hd) as [Hfresh ->].
  destruct (insertRow_returned _ _ _ Hins Hd) as [-> _].
  destruct (uploadObject_stored _ _ _ _ Hup0 eq_refl Hue) as [Hkey ->].
  cbn [surveys survey_uploads freshRow SurveyRecord.id] in *.
  rewrite (updateRow_links _ _ _ _ Hfresh Hupd Hde).
  exists f0. repeat split; assumption.
Qed.

(** A submission never changes or removes what the backend already
    holds: the rows and the objects that were there stay, in place;
    at most one row and at most one object are added, and an object
    only together with a row. *)
Theorem submission_only_appends (s : Store) (a : App) :
  let w := submit (backend p) clk a s in
  exists rows objs,
    surveys (remote w) = (surveys s ++ rows)%list
    /\ survey_uploads (remote w) = (survey_uploads s ++ objs)%list
    /\ (List.length objs <= List.length rows <= 1)%nat.
Proof.
  intros w. subst w.
  destruct (submit_store_effect s a)
    as [-> | [_ [-> | (f & url & _ & _ & [-> | ->])]]]; cbn [surveys survey_uploads].
  - exists [], []. rewrite !app_nil_r. cbn [List.length].
    split; [reflexivity|]. split; [reflexivity|]. lia.
  - eexists _, [].
    split; [reflexivity|]. split; [symmetry; apply app_nil_r|].
    cbn [List.length]. lia.
  - eexists _, _.
    split; [reflexivity|]. split; [reflexivity|]. cbn [List.length]. lia.
  - eexists _, _.
    split; [reflexivity|]. split; [reflexivity|]. cbn [List.length]. lia.
Qed.

Lemma hasKey_app (key : string) (rows rows' : list SurveyRecord.t)
      (objs more : list (string * File.t)) :
  hasKey key (mkStore rows objs) = true ->
  hasKey key (mkStore rows' (objs ++ more)) = true.
Proof.
  unfold hasKey. cbn [survey_uploads]. intros H.
  rewrite existsb_app, H. reflexivity.
Qed.

Lemma hasKey_last (key : string) (f : File.t) (rows : list SurveyRecord.t)
      (objs : list (string * File.t)) :
  hasKey key (mkStore rows (objs ++ [(key, f)])) = true.
Proof.
  unfold hasKey. cbn [survey_uploads]. rewrite existsb_app. cbn [existsb fst].
  rewrite String.eqb_refl. apply orb_true_iff. right. reflexivity.
Qed.

(** Submissions keep the backend consistent: if every record that
    names a photo had its object in the bucket before, the same holds
    afterwards, however the submission ended. *)
Theorem submission_keeps_photos_linked (s : Store) (a : App) :
  photosLinked s ->
  photosLinked (remote (submit (backend p) clk a s)).
Proof.
  intros HL. destruct s as [rows objs].
  destruct (submit_store_effect (mkStore rows objs) a)
    as [-> | [_ [-> | (f & url & _ & _ & [-> | ->])]]];
    [exact HL| | |];
    intros r key Hr Hk; cbn [surveys survey_uploads] in Hr;
    apply in_app_or in Hr; destruct Hr as [Hr | [<- | []]];
    try discriminate Hk.
  - rewrite <- (app_nil_r objs). apply hasKey_app with (rows := rows).
    exact (HL r key Hr Hk).
  - apply hasKey_app with (rows := rows). exact (HL r key Hr Hk).
  - apply hasKey_app with (rows := rows). exact (HL r key Hr Hk).
  - cbn in Hk. injection Hk as <-. apply hasKey_last.
Qed.




End StoreEffects.

Lemma failed_attach_leaves_unlinked_object_witness :
  let p := SurveyStore.mkPlan "7f3c" None None (Some (refused "row not found"))
             (fun _ => PublicUrlReply.mk None) in
  let w := submit (SurveyStore.backend p) sampleClock (appWithPhoto tripJpg)
             SurveyStore.empty in
  let key := "survey-photos/survey-7f3c-1714557600000.jpg" in
  exists f,
    file (photo (form (appWithPhoto tripJpg))) = Some f
    /\ "7f3c" = SurveyStore.nextId p
    /\ SurveyStore.surveys (remote w)
       = (SurveyStore.surveys SurveyStore.empty
            ++ [SurveyStoreInv.freshRow p
                  (insertedRow sampleClock (appWithPhoto tripJpg))])%list
    /\ SurveyStore.survey_uploads (remote w)
       = (SurveyStore.survey_uploads SurveyStore.empty ++ [(key, f)])%list
    /\ SurveyStore.hasKey key SurveyStore.empty = false
    /\ status (app w) = Status.mk Error (messageOr (refused "row not found")
                                           "Submission failed.")
    /\ timers (app w) = timers (appWithPhoto tripJpg).
Proof.
  cbv zeta.
  apply (@failed_attach_leaves_unlinked_object
           (SurveyStore.mkPlan "7f3c" None None (Some (refused "row not found"))
              (fun _ => PublicUrlReply.mk None))
           sampleClock SurveyStore.empty (appWithPhoto tripJpg)
           (PhotoPatch.mk "survey-photos/survey-7f3c-1714557600000.jpg" None)
           "7f3c" (ErrorReply.mk (Some (refused "row not found")))
           (refused "row not found")).
  - right. right. right. left. reflexivity.
  - reflexivity.
Defined.

Lemma photo_submission_links_record_witness :
  let p := SurveyStore.happyPlan "7f3c" in
  let w := submit (SurveyStore.backend p) sampleClock (appWithPhoto tripJpg)
             SurveyStore.empty in
  let key := "survey-photos/survey-7f3c-1714557600000.jpg" in
  let patch := PhotoPatch.mk key (Some ("https://cdn.example/" ++ key)) in
  exists f,
    file (photo (form (appWithPhoto tripJpg))) = Some f
    /\ "7f3c" = SurveyStore.nextId p
    /\ patch = PhotoPatch.mk (filePath (SurveyStore.nextId p) (now sampleClock) f)
                 (publicUrlOrNull
                    (SurveyStore.publicUrlFor p
                       (filePath (SurveyStore.nextId p) (now sampleClock) f)))
    /\ SurveyStore.surveys (remote w)
       = (SurveyStore.surveys SurveyStore.empty
            ++ [SurveyStoreInv.linkedRow p
                  (insertedRow sampleClock (appWithPhoto tripJpg)) patch])%list
    /\ SurveyStore.survey_uploads (remote w)
       = (SurveyStore.survey_uploads SurveyStore.empty
            ++ [(PhotoPatch.photo_path patch, f)])%list
    /\ SurveyStore.hasKey (PhotoPatch.photo_path patch) SurveyStore.empty = false
    /\ app w = succeeded (appWithPhoto tripJpg).
Proof.
  cbv zeta.
  apply (@photo_submission_links_record (SurveyStore.happyPlan "7f3c")
           sampleClock SurveyStore.empty (appWithPhoto tripJpg)
           (PhotoPatch.mk "survey-photos/survey-7f3c-1714557600000.jpg"
              (Some ("https://cdn.example/"
                       ++ "survey-photos/survey-7f3c-1714557600000.jpg")))
           "7f3c" (ErrorReply.mk None)).
  - right. right. right. left. reflexivity.
  - reflexivity.
Defined.

Lemma submission_keeps_photos_linked_witness :
  SurveyStoreInv.photosLinked
    (remote (submit (SurveyStore.backend (SurveyStore.happyPlan "7f3c"))
               sampleClock (appWithPhoto tripJpg) SurveyStore.empty)).
Proof.
  apply submission_keeps_photos_linked.
  intros r key Hin. destruct Hin.
Defined.


(* ------------------------------------------------------------------ *)
(** ** Keys at different times *)

Lemma append_cancel_l (s x y : string) : s ++ x = s ++ y -> x = y.
Proof.
  induction s as [|c s IH]; cbn [append]; intros H; [exact H|].
  injection H as H. exact (IH H).
Qed.

Lemma length_append (x y : string) :
  String.length (x ++ y) = (String.length x + String.length y)%nat.
Proof.
  induction x as [|c x IH]; cbn [append String.length plus]; [reflexivity|].
  rewrite IH. reflexivity.
Qed.

Lemma append_cancel_r (t x y : string) : x ++ t = y ++ t -> x = y.
Proof.
  revert y. induction x as [|c x IH]; intros [|d y] H; cbn [append] in H.
  - reflexivity.
  - apply (f_equal String.length) in H. cbn [String.length] in H.
    rewrite length_append in H. lia.
  - apply (f_equal String.length) in H. cbn [String.length] in H.
    rewrite length_append in H. lia.
  - injection H as -> H. rewrite (IH y H). reflexivity.
Qed.

Lemma to_int_not_nil (z : Z) : Z.to_int z <> Decimal.Pos Decimal.Nil
                                /\ Z.to_int z <> Decimal.Neg Decimal.Nil.
Proof.
  destruct z as [|q|q]; cbn [Z.to_int]; split; try discriminate;
    intros H; injection H as H; exact (DecimalPos.Unsigned.to_uint_nonnil q H).
Qed.

(** The decimal text of a number determines the number. *)
Lemma ofNumber_inj (m n : Z) : ofNumber m = ofNumber n -> m = n.
Proof.
  unfold ofNumber. intros H. apply DecimalZ.to_int_inj.
  destruct (to_int_not_nil m) as [Hm1 Hm2].
  destruct (to_int_not_nil n) as [Hn1 Hn2].
  pose proof (NilZero.isi (Z.to_int m) Hm1 Hm2) as Em.
  pose proof (NilZero.isi (Z.to_int n) Hn1 Hn2) as En.
  rewrite H in Em. rewrite Em in En. injection En as En. exact En.
Qed.

(** For one record and one file, keys derived at different clock
    readings differ: a later submission of the same photo for the
    same record cannot name the earlier object. *)
Theorem keys_differ_with_time (surveyId : string) (f : File.t) (t1 t2 : Z) :
  t1 <> t2 ->
  filePath surveyId t1 f <> filePath surveyId t2 f.
Proof.
  intros Hne Heq. apply Hne. unfold filePath, fileName in Heq.
  apply append_cancel_l in Heq. apply append_cancel_l in Heq.
  apply append_cancel_l in Heq. apply append_cancel_l in Heq.
  apply append_cancel_r in Heq. exact (ofNumber_inj _ _ Heq).
Qed.

Lemma keys_differ_with_time_witness :
  filePath "7f3c" 1714557600000 tripJpg <> filePath "7f3c" 1714557600001 tripJpg.
Proof.
  apply keys_differ_with_time. discriminate.
Defined.

(* ------------------------------------------------------------------ *)
(** ** The team-size label *)

Lemma ofNumber_parses (n : Z) :
  NilZero.int_of_string (ofNumber n) = Some (Z.to_int n).
Proof.
  destruct (to_int_not_nil n) as [H1 H2]. exact (NilZero.isi (Z.to_int n) H1 H2).
Qed.

(** The label "100+" is shown exactly for team sizes of 100 and more:
    no smaller size prints as "100+", and below 100 different sizes
    have different labels.  The review step shows the same text as
    the slider. *)
Theorem team_label_is_unambiguous (f g : FormState) :
  String.eqb (teamLabel f) "100+" = (100 <=? teamSize (profiling f))
  /\ reviewTeamSize f = teamLabel f
  /\ (teamLabel f = teamLabel g ->
      teamSize (profiling f) = teamSize (profiling g)
      \/ (100 <= teamSize (profiling f) /\ 100 <= teamSize (profiling g))).
Proof.
  assert (Hplus : forall n, ofNumber n <> "100+").
  { intros n H. pose proof (ofNumber_parses n) as P. rewrite H in P.
    vm_compute in P. discriminate P. }
  unfold teamLabel, reviewTeamSize.
  split; [|split; [reflexivity|]].
  - destruct (100 <=? teamSize (profiling f)); [reflexivity|].
    apply String.eqb_neq. apply Hplus.
  - destruct (100 <=? teamSize (profiling f)) eqn:Hf;
      destruct (100 <=? teamSize (profiling g)) eqn:Hg; intros H.
    + right. split; apply Z.leb_le; assumption.
    + exfalso. exact (Hplus _ (eq_sym H)).
    + exfalso. exact (Hplus _ H).
    + left. exact (ofNumber_inj _ _ H).
Qed.

Lemma team_label_is_unambiguous_witness :
  let f := form (updateProfiling (FTeamSize 100) initialApp) in
  let g := form (updateProfiling (FTeamSize 250) initialApp) in
  teamLabel f = teamLabel g
  /\ (teamSize (profiling f) = teamSize (profiling g)
      \/ (100 <= teamSize (profiling f) /\ 100 <= teamSize (profiling g))).
Proof.
  cbv zeta. split; [reflexivity|].
  apply (team_label_is_unambiguous
           (form (updateProfiling (FTeamSize 100) initialApp))
           (form (updateProfiling (FTeamSize 250) initialApp))).
  reflexivity.
Defined.
